(** * Verification of the Tangle GCP deployment bootstrap ([start.py])

    [start.py] is a Python module whose body runs at import time: it
    configures logging, builds the storage provider, the Kubernetes client
    and launcher, the authentication stub and the database engine, defines
    the orchestrator entry point, builds the FastAPI application with its
    lifespan, its exception handler and its health check, and mounts the Web
    app's static files.

    The module is embedded as a program in a small monad that threads the
    interpreter state (the effects performed so far, the routes of the
    application, the threads started, the global [port]) and that stops at
    the first exception.  Calls into the imported packages (kubernetes,
    sqlalchemy, fastapi, cloud_pipelines_backend) are effects whose outcome
    is chosen by the environment. *)

From Stdlib Require Import String Ascii List ZArith QArith Bool.
From Stdlib Require Import DecimalString.
Import ListNotations.

Local Open Scope string_scope.
Local Open Scope Z_scope.
Local Open Scope list_scope.

(** ** Python values and exceptions *)

Module Py.

(** One entry of a traceback ([exc.__traceback__]). *)
Record frame := Frame {
  fr_file : string;
  fr_line : Z;
  fr_func : string;
  fr_code : string
}.

(** An exception instance: its class name, [str(exc)], its traceback. *)
Record exn := Exn {
  exc_type : string;
  exc_msg : string;
  exc_traceback : list frame
}.

(** The functions [start.py] defines and hands to other components. *)
Inductive callable :=
| run_configured_orchestrator_fn
| get_user_details_fn
| lifespan_fn
| handle_error_fn
| health_check_fn.

(** [pathlib.Path] values built from [this_dir] with the [/] operator. *)
Inductive path :=
| this_dir
| join (parent : path) (segment : string).

Fixpoint path_eqb (p q : path) : bool :=
  match p, q with
  | this_dir, this_dir => true
  | join p' a, join q' b => path_eqb p' q' && String.eqb a b
  | _, _ => false
  end.

(** The values the module passes around.  An object returned by an
    imported constructor is represented by the call that built it. *)
#[warnings="-register-all"]
Inductive value :=
| VNone
| VBool (b : bool)
| VInt (z : Z)
| VFloat (q : Q)
| VStr (s : string)
| VFunction (f : callable)
| VStorageProvider
| VApiClient
| VLauncher (api_client : value) (namespace : value) (service_account_name : value)
| VEngine (database_uri : string)
| VSessionFactory (autocommit autoflush : bool) (bind : value)
| VOrchestrator (kwargs : list (string * value))
| VApp (title version : string) (separate_input_output_schemas : bool)
       (lifespan : callable).

Definition kwargs := list (string * value).

(** [Optional[str]] configuration values. *)
Definition of_optional_str (o : option string) : value :=
  match o with
  | Some s => VStr s
  | None => VNone
  end.

Definition is_int (v : value) : bool :=
  match v with VInt _ => true | _ => false end.

Definition is_bool (v : value) : bool :=
  match v with VBool _ => true | _ => false end.

Definition is_float (v : value) : bool :=
  match v with VFloat _ => true | _ => false end.

Definition is_orchestrator (v : value) : bool :=
  match v with VOrchestrator _ => true | _ => false end.

(** Keyword lookup, first binding wins (keywords are unique in a call). *)
Fixpoint get (k : string) (kw : kwargs) : option value :=
  match kw with
  | [] => None
  | (k', v) :: rest => if String.eqb k k' then Some v else get k rest
  end.

Definition keys (kw : kwargs) : list string := map fst kw.

End Py.

Import Py.

(** ** Effects *)

Inductive log_level := DEBUG | INFO | WARNING.

(** A mounted sub-application: [app.mount(path, StaticFiles(directory, html), name)]. *)
Record mount := Mount {
  mount_path : string;
  mount_directory : path;
  mount_html : bool;
  mount_name : string
}.

(** What the module does to the outside, in program order. *)
Inductive event :=
| Log (level : log_level) (message : string)
| DictConfig
| NewStorageProvider
| LoadInclusterConfig
| LoadKubeConfig (config_file context : value)
| NewApiClient
| VersionGetCode (client : value) (_request_timeout : Z)
| NewLauncher (api_client namespace service_account_name : value)
| CreateDbEngineAndMigrateDb (database_uri : string)
| Sessionmaker (autocommit autoflush : bool) (bind : value)
| NewOrchestrator (kw : kwargs)
| RunLoop (orchestrator : value)
| ThreadStart (target : callable) (daemon : bool)
| NewFastAPI (title version : string) (separate_input_output_schemas : bool)
             (lifespan : callable)
| AddExceptionHandler (handler : callable)
| SetupRoutes (kw : kwargs)
| AddGetRoute (route : string) (endpoint : callable)
| AppMount (m : mount)
| UvicornRun (host : string) (port : Z).

(** How a call into an imported package ends. *)
Inductive outcome :=
| Returns
| Raises (e : exn)
| Hangs.

(** The environment: the outcome of every external call, given what the
    program did before it, the file system and the process environment. *)
Record world := World {
  call_outcome : list event -> event -> outcome;
  path_exists : path -> bool;
  path_str : path -> string;
  environ_get : string -> option string
}.

(** ** Interpreter state and the module monad *)

Inductive thread_status :=
| Alive
| Finished
| Died (e : exn).

(** A [threading.Thread] that has been started. *)
Record thread := Thread {
  thread_target : callable;
  thread_daemon : bool;
  thread_status_of : thread_status
}.

(** The interpreter state: the effects so far, [app.routes] restricted to
    the mounts, the threads started, and the module global [port]. *)
Record state := State {
  trace : list event;
  routes : list mount;
  threads : list thread;
  st_port : Z
}.

Inductive result (A : Type) :=
| Ok (a : A)
| Raise (e : exn)
| Forever.

Arguments Ok {A} a.
Arguments Raise {A} e.
Arguments Forever {A}.

Definition M (A : Type) : Type := state -> result A * state.

Definition ret {A} (a : A) : M A := fun s => (Ok a, s).

Definition bind {A B} (m : M A) (k : A -> M B) : M B :=
  fun s =>
    match m s with
    | (Ok a, s') => k a s'
    | (Raise e, s') => (Raise e, s')
    | (Forever, s') => (Forever, s')
    end.

Definition raise {A} (e : exn) : M A := fun s => (Raise e, s).

(** [try: body except: handler] with a bare [except], which catches every
    exception and does not bind it. *)
Definition try_except {A} (body : M A) (handler : M A) : M A :=
  fun s =>
    match body s with
    | (Raise _, s') => handler s'
    | r => r
    end.

Declare Scope py_scope.
Delimit Scope py_scope with py.
Notation "x <- m ;; k" := (bind m (fun x => k))
  (at level 61, m at next level, right associativity) : py_scope.
Notation "m ;; k" := (bind m (fun _ => k))
  (at level 61, right associativity) : py_scope.
Local Open Scope py_scope.

Definition record (e : event) (s : state) : state :=
  State (trace s ++ [e]) (routes s) (threads s) (st_port s).

Definition get_port : M Z := fun s => (Ok (st_port s), s).

Definition set_port (p : Z) : M unit :=
  fun s => (Ok tt, State (trace s) (routes s) (threads s) p).

(** [logger.info] and [logger.warning]: the record is emitted and the call
    returns (the logging package reports handler errors itself and never
    propagates them to the caller). *)
Definition logger_info (msg : string) : M unit :=
  fun s => (Ok tt, record (Log INFO msg) s).

Definition logger_warning (msg : string) : M unit :=
  fun s => (Ok tt, record (Log WARNING msg) s).

(** ** Configuration (region "Configuration" of the module) *)

Module Cfg.

Record config := Config {
  database_uri : string;
  artifacts_root_uri : string;
  logs_root_uri : string;
  kubernetes_namespace : string;
  kubernetes_service_account_name : option string;
  kubeconfig_path : option string;
  kubeconfig_context : option string;
  host : string;
  port : Z;
  authentication_type : string;
  sleep_seconds_between_queue_sweeps : Q
}.

(** The values written in the file. *)
Definition configured : config := {|
  database_uri := "sqlite:///db.sqlite";
  artifacts_root_uri := "gs://<bucket-artifacts>/artifacts";
  logs_root_uri := "gs://<bucket-logs>/logs";
  kubernetes_namespace := "default";
  kubernetes_service_account_name := None;
  kubeconfig_path := None;
  kubeconfig_context := None;
  host := "0.0.0.0";
  port := 8000;
  authentication_type := "dummy_admin";
  sleep_seconds_between_queue_sweeps := 1 # 1
|}.

End Cfg.

(** ** Requests, users and responses *)

(** The part of a [fastapi.Request] a handler can look at. *)
Record Request := {
  req_method : string;
  req_path : string;
  req_headers : list (string * string);
  req_cookies : list (string * string);
  req_client_host : option string;
  req_body : string
}.

Record Permissions := {
  read : bool;
  write : bool;
  admin : bool
}.

Record UserDetails := {
  name : string;
  permissions : Permissions
}.

#[warnings="-register-all"]
Inductive json :=
| JStr (s : string)
| JList (l : list json)
| JDict (d : list (string * json)).


(** The module globals the functions of the file read when they run. *)
Record globals := {
  storage_provider : value;
  launcher : value;
  db_engine : value
}.

(** What the authentication region binds. *)
Record authentication := {
  user_details_getter : Request -> UserDetails;
  default_component_library_owner_username : string
}.

(** [str(n)] for an [int]. *)
Definition str_int (n : Z) : string := NilZero.string_of_int (Z.to_int n).

Section Program.

Variable w : world.
Variable cfg : Cfg.config.

(** A call into an imported package: it is recorded, then returns, raises
    or never comes back, as the environment decides. *)
Definition call (e : event) : M unit :=
  fun s =>
    match call_outcome w (trace s) e with
    | Returns => (Ok tt, record e s)
    | Raises x => (Raise x, record e s)
    | Hangs => (Forever, record e s)
    end.

(** *** Logging and storage configuration *)

Definition logging_configuration : M unit := call DictConfig.

Definition storage_configuration : M value :=
  call NewStorageProvider ;;
  ret VStorageProvider.

(** *** Launcher configuration *)

Definition load_incluster_config : M unit := call LoadInclusterConfig.

Definition load_kube_config (config_file context : option string) : M unit :=
  call (LoadKubeConfig (of_optional_str config_file) (of_optional_str context)).

Definition launcher_configuration : M value :=
  try_except load_incluster_config
    (load_kube_config (Cfg.kubeconfig_path cfg) (Cfg.kubeconfig_context cfg)) ;;
  call NewApiClient ;;
  let k8s_client := VApiClient in
  call (VersionGetCode k8s_client 5) ;;
  let namespace := VStr (Cfg.kubernetes_namespace cfg) in
  let service_account_name :=
    of_optional_str (Cfg.kubernetes_service_account_name cfg) in
  call (NewLauncher k8s_client namespace service_account_name) ;;
  ret (VLauncher k8s_client namespace service_account_name).

(** *** Authentication configuration *)

Definition ADMIN_USER_NAME : string := "admin".

Definition get_user_details (request : Request) : UserDetails :=
  {| name := ADMIN_USER_NAME;
     permissions := {| read := true; write := true; admin := true |} |}.

Definition authentication_configuration : M authentication :=
  if String.eqb (Cfg.authentication_type cfg) "dummy_admin" then
    ret {| user_details_getter := get_user_details;
           default_component_library_owner_username := ADMIN_USER_NAME |}
  else if String.eqb (Cfg.authentication_type cfg) "google_cloud_iap" then
    raise (Exn "NotImplementedError"
             "Google Cloud IAP authentication is not implemented yet." [])
  else
    raise (Exn "ValueError"
             ("Unknown authentication type: " ++ Cfg.authentication_type cfg) []).

(** *** Database engine initialization *)

Definition database_engine_initialization : M value :=
  call (CreateDbEngineAndMigrateDb (Cfg.database_uri cfg)) ;;
  ret (VEngine (Cfg.database_uri cfg)).

(** *** Orchestrator initialization *)

Section Orchestrator.

Variable g : globals.

Definition run_orchestrator (db_engine storage_provider : value)
    (data_root_uri logs_root_uri : string)
    (sleep_seconds_between_queue_sweeps : Q) : M unit :=
  logger_info "Starting the orchestrator" ;;
  call (Sessionmaker false false db_engine) ;;
  let session_factory := VSessionFactory false false db_engine in
  let kw :=
    [ ("session_factory", session_factory);
      ("launcher", launcher g);
      ("storage_provider", storage_provider);
      ("data_root_uri", VStr data_root_uri);
      ("logs_root_uri", VStr logs_root_uri);
      ("sleep_seconds_between_queue_sweeps",
       VFloat sleep_seconds_between_queue_sweeps) ] in
  call (NewOrchestrator kw) ;;
  let orchestrator := VOrchestrator kw in
  call (RunLoop orchestrator).

Definition run_configured_orchestrator : M unit :=
  run_orchestrator (db_engine g) (storage_provider g)
    (Cfg.artifacts_root_uri cfg) (Cfg.logs_root_uri cfg)
    (Cfg.sleep_seconds_between_queue_sweeps cfg).

End Orchestrator.

(** *** API Server initialization *)

(** [threading.Thread(target=..., daemon=...).start()] *)
Definition thread_start (target : callable) (daemon : bool) : M unit :=
  call (ThreadStart target daemon) ;;
  fun s =>
    (Ok tt, State (trace s) (routes s)
              (threads s ++ [Thread target daemon Alive]) (st_port s)).

Definition in_google_cloud_shell : bool :=
  match environ_get w "GOOGLE_CLOUD_SHELL" with
  | Some v => String.eqb v "true"
  | None => false
  end.

(** The body of [lifespan] up to its [yield]; [p'] is [port or 8000]. *)
Definition lifespan_startup : M unit :=
  thread_start run_configured_orchestrator_fn true ;;
  if in_google_cloud_shell then
    p <- get_port ;;
    let p' := if p =? 0 then 8000 else p in
    set_port p' ;;
    logger_info
      ("View app at: https://shell.cloud.google.com/devshell/proxy?port="
         ++ str_int p')
  else ret tt.

(** The body of [lifespan] after its [yield]: there is none. *)
Definition lifespan_shutdown : M unit := ret tt.

Section Handlers.

(** [traceback.format_exception(type(exc), exc, exc.__traceback__)] *)
Variable format_exception : string -> exn -> list frame -> list string.


End Handlers.

Definition health_check : json := JDict [].

Definition app : value := VApp "Tangle API" "0.0.1" false lifespan_fn.

Definition setup_routes_kwargs (g : globals) (auth : authentication) : kwargs :=
  [ ("app", app);
    ("db_engine", db_engine g);
    ("user_details_getter", VFunction get_user_details_fn);
    ("container_launcher_for_log_streaming", launcher g);
    ("default_component_library_owner_username",
     VStr (default_component_library_owner_username auth)) ].

Definition api_server_initialization (g : globals) (auth : authentication)
    : M unit :=
  call (NewFastAPI "Tangle API" "0.0.1" false lifespan_fn) ;;
  call (AddExceptionHandler handle_error_fn) ;;
  call (SetupRoutes (setup_routes_kwargs g auth)) ;;
  call (AddGetRoute "/services/ping" health_check_fn).

(** *** Mounting the web app if the files exist *)

Definition parent_dir : path := join this_dir "..".

Definition web_app_search_dirs : list path :=
  [ join (join parent_dir "pipeline-studio-app") "build";
    join (join parent_dir "frontend") "build";
    join parent_dir "frontend_build";
    join (join parent_dir "tangle-ui") "dist";
    join parent_dir "ui_build";
    join (join this_dir "pipeline-studio-app") "build";
    join this_dir "ui_build" ].

Definition static_files (mount_path : string) (directory : path) : mount :=
  Mount mount_path directory true "static".

Definition app_mount (m : mount) : M unit :=
  call (AppMount m) ;;
  fun s =>
    (Ok tt, State (trace s) (routes s ++ [m]) (threads s) (st_port s)).

(** The three mounts of one directory, in program order. *)
Definition mounts_of_dir (web_app_dir : path) : list mount :=
  [ static_files "/tangle-ui/" web_app_dir;
    static_files "/pipeline-studio-app/" web_app_dir;
    static_files "/" web_app_dir ].

Definition found_message (web_app_dir : path) : string :=
  "Found the Web app static files at " ++ path_str w web_app_dir
    ++ ". Mounting them.".

(** The [for] loop; [found] is [found_frontend_build_files]. *)
Fixpoint mount_loop (dirs : list path) (found : bool) : M bool :=
  match dirs with
  | [] => ret found
  | web_app_dir :: rest =>
      if path_exists w web_app_dir then
        logger_info (found_message web_app_dir) ;;
        app_mount (static_files "/tangle-ui/" web_app_dir) ;;
        app_mount (static_files "/pipeline-studio-app/" web_app_dir) ;;
        app_mount (static_files "/" web_app_dir) ;;
        mount_loop rest true
      else mount_loop rest found
  end.

Definition not_found_message : string :=
  "The Web app files were not found. Skipping.".

Definition mount_web_app : M unit :=
  found_frontend_build_files <- mount_loop web_app_search_dirs false ;;
  if negb found_frontend_build_files then logger_warning not_found_message
  else ret tt.

(** *** The module body *)

Definition main : M unit :=
  p <- get_port ;;
  logger_info ("Starting the app on http://127.0.0.1:" ++ str_int p) ;;
  call (UvicornRun (Cfg.host cfg) p).

(** Everything the module does when it is imported ([is_main] false) or
    run as a script ([is_main] true). *)
Definition module_body (is_main : bool) : M globals :=
  logging_configuration ;;
  storage_provider <- storage_configuration ;;
  launcher <- launcher_configuration ;;
  auth <- authentication_configuration ;;
  db_engine <- database_engine_initialization ;;
  let g := {| storage_provider := storage_provider;
              launcher := launcher;
              db_engine := db_engine |} in
  api_server_initialization g auth ;;
  mount_web_app ;;
  (if is_main then main else ret tt) ;;
  ret g.

Definition initial_state : state := State [] [] [] (Cfg.port cfg).

(** ** The running process

    Once the module is loaded the server drives the application: it
    enters and leaves the lifespan, and routes requests.  Threads run on
    their own.

    - [LifespanStartup], [LifespanShutdown]: the server enters [lifespan]
      and resumes it after its [yield];
    - [HttpPing]: a GET on [/services/ping], answered by [health_check];
    - [HttpUserDetails]: a route of the API router asks
      [user_details_getter] who the caller is;
    - [HttpUnhandled]: a route raised [exc], answered by [handle_error];
    - [ThreadRuns i]: the i-th started thread runs its target.

    The three handlers of the file are pure functions: they return a value
    and leave the interpreter state as it is. *)

Inductive server_event :=
| LifespanStartup
| LifespanShutdown
| HttpPing (request : Request)
| HttpUserDetails (request : Request)
| HttpUnhandled (request : Request) (exc : exn)
| ThreadRuns (i : nat).

Section Process.

Variable g : globals.

(** The code a started thread executes: its target, called once with no
    arguments on a fresh call stack.  Only
    [run_configured_orchestrator] is ever a target. *)
Definition thread_body (target : callable) : M unit :=
  match target with
  | run_configured_orchestrator_fn => run_configured_orchestrator g
  | _ => ret tt
  end.

(** [threading.Thread.run]: the thread is over when its target returns
    or raises, and stays alive while the target has not come back. *)
Definition status_of_result (r : result unit) : thread_status :=
  match r with
  | Ok _ => Finished
  | Raise e => Died e
  | Forever => Alive
  end.

Definition run_thread (t : thread) : thread :=
  match thread_status_of t with
  | Alive =>
      Thread (thread_target t) (thread_daemon t)
        (status_of_result
           (fst (thread_body (thread_target t) initial_state)))
  | _ => t
  end.

Fixpoint update_nth {A} (i : nat) (f : A -> A) (l : list A) : list A :=
  match l, i with
  | [], _ => []
  | x :: rest, O => f x :: rest
  | x :: rest, S j => x :: update_nth j f rest
  end.

Definition serve (ev : server_event) (s : state) : state :=
  match ev with
  | LifespanStartup => snd (lifespan_startup s)
  | LifespanShutdown => snd (lifespan_shutdown s)
  | HttpPing _ => s
  | HttpUserDetails _ => s
  | HttpUnhandled _ _ => s
  | ThreadRuns i =>
      State (trace s) (routes s) (update_nth i run_thread (threads s))
        (st_port s)
  end.

Definition serve_all (evs : list server_event) (s : state) : state :=
  fold_left (fun s ev => serve ev s) evs s.

End Process.

End Program.

(** ** [traceback.format_exception]

    The formatting of the Python standard library for an exception without
    cause, context or notes: a header when there is a traceback, one entry
    per frame, oldest first, and the line [Type: message]. *)

Module Traceback.





End Traceback.


(** ** Environments used to run the program on concrete inputs *)

Module Worlds.

(** Every external call returns; no candidate directory exists. *)
Definition calm : world := {|
  call_outcome := fun _ _ => Returns;
  path_exists := fun _ => false;
  path_str := fun _ => "web";
  environ_get := fun _ => None
|}.

Definition config_exception : exn :=
  Exn "ConfigException" "Service host/port is not set."
    [Frame "incluster_config.py" 121 "load_incluster_config" "loader.load_and_set()"].

Definition max_retry_error : exn :=
  Exn "MaxRetryError" "Max retries exceeded with url: /version/"
    [Frame "rest.py" 244 "request" "r = self.pool_manager.request("].

(** Outside a cluster, with a kubeconfig and a reachable API server. *)
Definition outside_cluster : world := {|
  call_outcome := fun _ e =>
    match e with
    | LoadInclusterConfig => Raises config_exception
    | _ => Returns
    end;
  path_exists := fun _ => false;
  path_str := fun _ => "web";
  environ_get := fun _ => None
|}.

(** Outside a cluster and without a usable kubeconfig. *)
Definition no_kube_config : world := {|
  call_outcome := fun _ e =>
    match e with
    | LoadInclusterConfig => Raises config_exception
    | LoadKubeConfig _ _ => Raises config_exception
    | _ => Returns
    end;
  path_exists := fun _ => false;
  path_str := fun _ => "web";
  environ_get := fun _ => None
|}.

(** Configuration loads, but the API server does not answer the probe. *)
Definition unreachable_cluster : world := {|
  call_outcome := fun _ e =>
    match e with
    | VersionGetCode _ _ => Raises max_retry_error
    | _ => Returns
    end;
  path_exists := fun _ => false;
  path_str := fun _ => "web";
  environ_get := fun _ => None
|}.

(** A checkout with [../frontend_build] and [./ui_build], run in Google
    Cloud Shell. *)
Definition two_builds : world := {|
  call_outcome := fun _ _ => Returns;
  path_exists := fun p =>
    path_eqb p (join (join this_dir "..") "frontend_build")
    || path_eqb p (join this_dir "ui_build");
  path_str := fun p =>
    if path_eqb p (join this_dir "ui_build") then "/app/ui_build"
    else "/app/../frontend_build";
  environ_get := fun k =>
    if String.eqb k "GOOGLE_CLOUD_SHELL" then Some "true" else None
|}.

Definition connection_lost : exn :=
  Exn "OperationalError" "server closed the connection unexpectedly"
    [Frame "orchestrator_sql.py" 60 "run_loop" "self.internal_process_queued_executions_queue(session)"].

(** The orchestrator loop raises as soon as it is entered. *)
Definition database_down : world := {|
  call_outcome := fun _ e =>
    match e with
    | RunLoop _ => Raises connection_lost
    | _ => Returns
    end;
  path_exists := fun _ => false;
  path_str := fun _ => "web";
  environ_get := fun _ => None
|}.

(** The configuration of the file with another authentication type. *)
Definition with_authentication_type (t : string) : Cfg.config := {|
  Cfg.database_uri := Cfg.database_uri Cfg.configured;
  Cfg.artifacts_root_uri := Cfg.artifacts_root_uri Cfg.configured;
  Cfg.logs_root_uri := Cfg.logs_root_uri Cfg.configured;
  Cfg.kubernetes_namespace := Cfg.kubernetes_namespace Cfg.configured;
  Cfg.kubernetes_service_account_name :=
    Cfg.kubernetes_service_account_name Cfg.configured;
  Cfg.kubeconfig_path := Cfg.kubeconfig_path Cfg.configured;
  Cfg.kubeconfig_context := Cfg.kubeconfig_context Cfg.configured;
  Cfg.host := Cfg.host Cfg.configured;
  Cfg.port := Cfg.port Cfg.configured;
  Cfg.authentication_type := t;
  Cfg.sleep_seconds_between_queue_sweeps :=
    Cfg.sleep_seconds_between_queue_sweeps Cfg.configured
|}.

Definition ping : Request :=
  Build_Request "GET" "/services/ping" [] [] None EmptyString.

(** A process whose orchestrator loop fails: after the lifespan is entered,
    after the thread has run, and after some more requests. *)
Definition started : state :=
  serve database_down Cfg.configured
    {| storage_provider := VStorageProvider;
       launcher := VLauncher VApiClient (VStr "default") VNone;
       db_engine := VEngine "sqlite:///db.sqlite" |}
    LifespanStartup (initial_state Cfg.configured).

Definition dead : state :=
  serve database_down Cfg.configured
    {| storage_provider := VStorageProvider;
       launcher := VLauncher VApiClient (VStr "default") VNone;
       db_engine := VEngine "sqlite:///db.sqlite" |}
    (ThreadRuns 0) started.

Definition later : state :=
  serve_all database_down Cfg.configured
    {| storage_provider := VStorageProvider;
       launcher := VLauncher VApiClient (VStr "default") VNone;
       db_engine := VEngine "sqlite:///db.sqlite" |}
    [HttpPing ping; HttpUnhandled ping max_retry_error; LifespanShutdown;
     ThreadRuns 0]
    dead.

End Worlds.

(** ** Auxiliary notions used in the statements *)

(** The state in which the Kubernetes client is built: after the
    in-cluster attempt and, when that raised, after the fallback. *)
Definition config_loaded (w : world) (cfg : Cfg.config) (s s' : state) : Prop :=
  (call_outcome w (trace s) LoadInclusterConfig = Returns
   /\ s' = record LoadInclusterConfig s)
  \/ (exists e,
        call_outcome w (trace s) LoadInclusterConfig = Raises e
        /\ call_outcome w (trace s ++ [LoadInclusterConfig])
             (LoadKubeConfig (of_optional_str (Cfg.kubeconfig_path cfg))
                (of_optional_str (Cfg.kubeconfig_context cfg))) = Returns
        /\ s' = record
                  (LoadKubeConfig (of_optional_str (Cfg.kubeconfig_path cfg))
                     (of_optional_str (Cfg.kubeconfig_context cfg)))
                  (record LoadInclusterConfig s)).

(** The keyword arguments [run_orchestrator] builds the orchestrator with. *)
Definition orchestrator_kwargs (g : globals) (db_engine storage_provider : value)
    (data_root_uri logs_root_uri : string) (sleep : Q) : kwargs :=
  [ ("session_factory", VSessionFactory false false db_engine);
    ("launcher", launcher g);
    ("storage_provider", storage_provider);
    ("data_root_uri", VStr data_root_uri);
    ("logs_root_uri", VStr logs_root_uri);
    ("sleep_seconds_between_queue_sweeps", VFloat sleep) ].

(** Everything [run_orchestrator] can do, in order. *)
Definition orchestrator_script (g : globals) (db_engine storage_provider : value)
    (data_root_uri logs_root_uri : string) (sleep : Q) : list event :=
  let kw := orchestrator_kwargs g db_engine storage_provider
              data_root_uri logs_root_uri sleep in
  [ Log INFO "Starting the orchestrator";
    Sessionmaker false false db_engine;
    NewOrchestrator kw;
    RunLoop (VOrchestrator kw) ].

(** The globals the module body binds when every region succeeds. *)
Definition booted_globals (cfg : Cfg.config) : globals := {|
  storage_provider := VStorageProvider;
  launcher :=
    VLauncher VApiClient (VStr (Cfg.kubernetes_namespace cfg))
      (of_optional_str (Cfg.kubernetes_service_account_name cfg));
  db_engine := VEngine (Cfg.database_uri cfg)
|}.

(** The calls only [run_orchestrator] makes. *)
Definition is_loop_event (e : event) : bool :=
  match e with
  | Sessionmaker _ _ _ | NewOrchestrator _ | RunLoop _ => true
  | _ => false
  end.


Definition is_startup (ev : server_event) : bool :=
  match ev with
  | LifespanStartup => true
  | _ => false
  end.



(** [m] keeps the property [P] of the state, however it ends. *)
Definition preserves {A} (P : state -> Prop) (m : M A) : Prop :=
  forall s, P s -> P (snd (m s)).

(** A daemon thread running the configured orchestrator. *)
Definition orchestrator_daemon (t : thread) : Prop :=
  thread_target t = run_configured_orchestrator_fn /\ thread_daemon t = true.

(** ** Notions used for the module as a whole *)

(** The events [m] adds to the trace when it runs from [s]. *)
Definition new_events {A} (m : M A) (s : state) : list event :=
  skipn (length (trace s)) (trace (snd (m s))).

Definition is_kubernetes_event (e : event) : bool :=
  match e with
  | LoadInclusterConfig | LoadKubeConfig _ _ | NewApiClient
  | VersionGetCode _ _ | NewLauncher _ _ _ => true
  | _ => false
  end.


(** Events of the regions that come before the database engine. *)
Definition is_before_database (e : event) : bool :=
  match e with
  | DictConfig | NewStorageProvider => true
  | _ => is_kubernetes_event e
  end.

(** Module-level code: it only appends events, all of the class [ok], and
    leaves the threads and [port] alone, however it ends. *)
Definition module_level {A} (ok : event -> bool) (m : M A) : Prop :=
  forall s,
    exists evs,
      trace (snd (m s)) = trace s ++ evs
      /\ forallb ok evs = true
      /\ threads (snd (m s)) = threads s
      /\ st_port (snd (m s)) = st_port s.






Definition is_database_event (e : event) : bool :=
  match e with
  | CreateDbEngineAndMigrateDb _ => true
  | _ => false
  end.

(** * Properties *)

(** ** Basic facts about calls *)

Section CallFacts.

Variable w : world.

Lemma call_returns e s :
  call_outcome w (trace s) e = Returns -> call w e s = (Ok tt, record e s).
Proof. intros H. unfold call. now rewrite H. Qed.

Lemma call_raises e x s :
  call_outcome w (trace s) e = Raises x -> call w e s = (Raise x, record e s).
Proof. intros H. unfold call. now rewrite H. Qed.

Lemma call_hangs e s :
  call_outcome w (trace s) e = Hangs -> call w e s = (Forever, record e s).
Proof. intros H. unfold call. now rewrite H. Qed.

(** A call always records exactly its own event. *)
Lemma call_state e s : snd (call w e s) = record e s.
Proof. unfold call. now destruct (call_outcome w (trace s) e). Qed.

Lemma call_result e s :
  fst (call w e s) =
    match call_outcome w (trace s) e with
    | Returns => Ok tt
    | Raises x => Raise x
    | Hangs => Forever
    end.
Proof. unfold call. now destruct (call_outcome w (trace s) e). Qed.

End CallFacts.

Lemma trace_record e s : trace (record e s) = trace s ++ [e].
Proof. reflexivity. Qed.

(** ** Launcher configuration *)

Section LauncherConfiguration.

Variable w : world.
Variable cfg : Cfg.config.

Local Abbreviation fallback :=
  (LoadKubeConfig (of_optional_str (Cfg.kubeconfig_path cfg))
                  (of_optional_str (Cfg.kubeconfig_context cfg))).
Local Abbreviation probe := (VersionGetCode VApiClient 5).

Lemma incluster_first s :
  exists rest,
    trace (snd (launcher_configuration w cfg s))
    = trace s ++ LoadInclusterConfig :: rest.
Proof.
  unfold launcher_configuration, bind, try_except, load_incluster_config,
    load_kube_config, call, ret, record; cbn.
  repeat match goal with
         | |- context [match call_outcome w ?t ?e with _ => _ end] =>
             destruct (call_outcome w t e); cbn
         end;
    rewrite <- ?app_assoc; cbn; eexists; reflexivity.
Qed.

Lemma fallback_on_any_exception s e :
  call_outcome w (trace s) LoadInclusterConfig = Raises e ->
  exists rest,
    trace (snd (launcher_configuration w cfg s))
    = trace s ++ LoadInclusterConfig :: fallback :: rest.
Proof.
  intros H.
  unfold launcher_configuration, bind, try_except, load_incluster_config,
    load_kube_config, call, ret, record; cbn.
  rewrite H; cbn.
  repeat match goal with
         | |- context [match call_outcome w ?t ?e with _ => _ end] =>
             destruct (call_outcome w t e); cbn
         end;
    rewrite <- ?app_assoc; cbn; eexists; reflexivity.
Qed.

Lemma no_fallback_when_in_cluster s :
  call_outcome w (trace s) LoadInclusterConfig = Returns ->
  exists rest,
    trace (snd (launcher_configuration w cfg s))
    = trace s ++ LoadInclusterConfig :: NewApiClient :: rest.
Proof.
  intros H.
  unfold launcher_configuration, bind, try_except, load_incluster_config,
    load_kube_config, call, ret, record; cbn.
  rewrite H; cbn.
  repeat match goal with
         | |- context [match call_outcome w ?t ?e with _ => _ end] =>
             destruct (call_outcome w t e); cbn
         end;
    rewrite <- ?app_assoc; cbn; eexists; reflexivity.
Qed.

Lemma fallback_failure_propagates s e e' :
  call_outcome w (trace s) LoadInclusterConfig = Raises e ->
  call_outcome w (trace s ++ [LoadInclusterConfig]) fallback = Raises e' ->
  launcher_configuration w cfg s
  = (Raise e', record fallback (record LoadInclusterConfig s)).
Proof.
  intros H H'.
  unfold launcher_configuration, bind, try_except, load_incluster_config,
    load_kube_config.
  rewrite (call_raises _ _ _ _ H).
  now rewrite (call_raises w _ e' (record LoadInclusterConfig s) H').
Qed.

Lemma after_config_loaded s s1 :
  config_loaded w cfg s s1 ->
  launcher_configuration w cfg s
  = (call w NewApiClient ;; call w probe ;;
     call w (NewLauncher VApiClient (VStr (Cfg.kubernetes_namespace cfg))
               (of_optional_str (Cfg.kubernetes_service_account_name cfg))) ;;
     ret (VLauncher VApiClient (VStr (Cfg.kubernetes_namespace cfg))
            (of_optional_str (Cfg.kubernetes_service_account_name cfg)))) s1.
Proof.
  intros [[H ->] | (e & H & H' & ->)];
    unfold launcher_configuration, try_except, load_incluster_config,
      load_kube_config;
    unfold bind at 1.
  - now rewrite (call_returns _ _ _ H).
  - rewrite (call_raises _ _ _ _ H).
    now rewrite (call_returns w _ (record LoadInclusterConfig s) H').
Qed.

Lemma probe_failure_propagates s s1 e :
  config_loaded w cfg s s1 ->
  call_outcome w (trace s1) NewApiClient = Returns ->
  call_outcome w (trace s1 ++ [NewApiClient]) probe = Raises e ->
  launcher_configuration w cfg s
  = (Raise e, record probe (record NewApiClient s1)).
Proof.
  intros Hc Ha Hp.
  rewrite (after_config_loaded _ _ Hc).
  unfold bind.
  rewrite (call_returns _ _ _ Ha).
  now rewrite (call_raises w _ e (record NewApiClient s1) Hp).
Qed.

(** A launcher is only obtained after the probe, asked with a timeout of
    five seconds, has returned. *)
Lemma success_needs_probe s v s' :
  launcher_configuration w cfg s = (Ok v, s') ->
  exists pre post,
    trace s' = pre ++ probe :: post
    /\ call_outcome w pre probe = Returns.
Proof.
  unfold launcher_configuration, bind, try_except, load_incluster_config,
    load_kube_config, call, ret, record; cbn.
  repeat match goal with
         | |- context [match call_outcome w ?t ?e with _ => _ end] =>
             destruct (call_outcome w t e) eqn:?; cbn
         end;
    intros H; inversion H; subst; clear H; cbn;
    eexists; eexists; (split; [ | eassumption ]);
    rewrite <- ?app_assoc; cbn; reflexivity.
Qed.

End LauncherConfiguration.

(** A failure of the launcher configuration ends the module body: nothing
    of the regions after it runs. *)
Lemma module_aborts_when_launcher_fails w cfg is_main s0 e s2 :
  call_outcome w (trace s0) DictConfig = Returns ->
  call_outcome w (trace s0 ++ [DictConfig]) NewStorageProvider = Returns ->
  launcher_configuration w cfg
    (record NewStorageProvider (record DictConfig s0)) = (Raise e, s2) ->
  module_body w cfg is_main s0 = (Raise e, s2).
Proof.
  intros Hlog Hsto Hl.
  unfold module_body, logging_configuration, storage_configuration.
  unfold bind at 1. rewrite (call_returns _ _ _ Hlog).
  unfold bind at 1. unfold bind at 1.
  rewrite (call_returns w NewStorageProvider (record DictConfig s0) Hsto).
  unfold ret at 1. unfold bind at 1. now rewrite Hl.
Qed.

(** C10.  When the module is loaded, the launcher configuration first tries
    the in-cluster Kubernetes configuration; whatever exception that raises,
    it loads the kubeconfig with the configured path and context instead.
    It then asks the version API with a timeout of 5 seconds.  An exception
    of the fallback or of that probe is the result of the region, and of the
    whole module body: it is not caught, and a launcher is obtained only
    after the probe has returned. *)
Theorem kubernetes_client_bootstrap (w : world) (cfg : Cfg.config) (s : state) :
  (exists rest,
      trace (snd (launcher_configuration w cfg s))
      = trace s ++ LoadInclusterConfig :: rest)
  /\ (forall e,
        call_outcome w (trace s) LoadInclusterConfig = Raises e ->
        exists rest,
          trace (snd (launcher_configuration w cfg s))
          = trace s ++ LoadInclusterConfig
              :: LoadKubeConfig (of_optional_str (Cfg.kubeconfig_path cfg))
                   (of_optional_str (Cfg.kubeconfig_context cfg))
              :: rest)
  /\ (forall e e',
        call_outcome w (trace s) LoadInclusterConfig = Raises e ->
        call_outcome w (trace s ++ [LoadInclusterConfig])
          (LoadKubeConfig (of_optional_str (Cfg.kubeconfig_path cfg))
             (of_optional_str (Cfg.kubeconfig_context cfg))) = Raises e' ->
        fst (launcher_configuration w cfg s) = Raise e')
  /\ (forall s1 e,
        config_loaded w cfg s s1 ->
        call_outcome w (trace s1) NewApiClient = Returns ->
        call_outcome w (trace s1 ++ [NewApiClient]) (VersionGetCode VApiClient 5)
          = Raises e ->
        fst (launcher_configuration w cfg s) = Raise e)
  /\ (forall v s',
        launcher_configuration w cfg s = (Ok v, s') ->
        exists pre post,
          trace s' = pre ++ VersionGetCode VApiClient 5 :: post
          /\ call_outcome w pre (VersionGetCode VApiClient 5) = Returns)
  /\ (forall is_main s0 e s2,
        call_outcome w (trace s0) DictConfig = Returns ->
        call_outcome w (trace s0 ++ [DictConfig]) NewStorageProvider = Returns ->
        s = record NewStorageProvider (record DictConfig s0) ->
        launcher_configuration w cfg s = (Raise e, s2) ->
        module_body w cfg is_main s0 = (Raise e, s2)).
Proof.
  repeat split.
  - apply incluster_first.
  - apply fallback_on_any_exception.
  - intros e e' H H'. now rewrite (fallback_failure_propagates w cfg s e e' H H').
  - intros s1 e Hc Ha Hp.
    now rewrite (probe_failure_propagates w cfg s s1 e Hc Ha Hp).
  - apply success_needs_probe.
  - intros is_main s0 e s2 Hlog Hsto -> Hl.
    now apply module_aborts_when_launcher_fails.
Qed.

Lemma kubernetes_client_bootstrap_witness :
  (exists rest,
      trace (snd (launcher_configuration Worlds.outside_cluster Cfg.configured
                    (initial_state Cfg.configured)))
      = LoadInclusterConfig :: LoadKubeConfig VNone VNone :: rest)
  /\ fst (launcher_configuration Worlds.no_kube_config Cfg.configured
            (initial_state Cfg.configured))
     = Raise Worlds.config_exception
  /\ fst (launcher_configuration Worlds.unreachable_cluster Cfg.configured
            (initial_state Cfg.configured))
     = Raise Worlds.max_retry_error
  /\ (exists pre post,
        [LoadInclusterConfig; NewApiClient; VersionGetCode VApiClient 5;
         NewLauncher VApiClient (VStr "default") VNone]
        = pre ++ VersionGetCode VApiClient 5 :: post
        /\ call_outcome Worlds.calm pre (VersionGetCode VApiClient 5) = Returns)
  /\ fst (module_body Worlds.no_kube_config Cfg.configured false
            (initial_state Cfg.configured))
     = Raise Worlds.config_exception.
Proof.
  split; [ | split; [ | split; [ | split ] ] ].
  - exact (proj1 (proj2 (kubernetes_client_bootstrap Worlds.outside_cluster
                           Cfg.configured (initial_state Cfg.configured)))
             Worlds.config_exception eq_refl).
  - exact (proj1 (proj2 (proj2 (kubernetes_client_bootstrap Worlds.no_kube_config
                                  Cfg.configured (initial_state Cfg.configured))))
             Worlds.config_exception Worlds.config_exception eq_refl eq_refl).
  - refine (proj1 (proj2 (proj2 (proj2
              (kubernetes_client_bootstrap Worlds.unreachable_cluster
                 Cfg.configured (initial_state Cfg.configured)))))
              (record LoadInclusterConfig (initial_state Cfg.configured))
              Worlds.max_retry_error _ eq_refl eq_refl).
    left. split; reflexivity.
  - exact (proj1 (proj2 (proj2 (proj2 (proj2
              (kubernetes_client_bootstrap Worlds.calm
                 Cfg.configured (initial_state Cfg.configured))))))
             _ _ eq_refl).
  - pose proof (proj2 (proj2 (proj2 (proj2 (proj2
              (kubernetes_client_bootstrap Worlds.no_kube_config Cfg.configured
                 (record NewStorageProvider
                    (record DictConfig (initial_state Cfg.configured))))))))
              false (initial_state Cfg.configured) Worlds.config_exception _
              eq_refl eq_refl eq_refl eq_refl) as H.
    rewrite H. reflexivity.
Defined.

(** ** Orchestrator initialization *)

Section OrchestratorFacts.

Variable w : world.
Variable cfg : Cfg.config.
Variable g : globals.

Local Abbreviation orchestrator_kwargs := (orchestrator_kwargs g).
Local Abbreviation orchestrator_script := (orchestrator_script g).

Lemma run_orchestrator_prefix db sp data logs sleep s :
  exists n,
    trace (snd (run_orchestrator w g db sp data logs sleep s))
    = trace s ++ firstn n (orchestrator_script db sp data logs sleep).
Proof.
  unfold run_orchestrator, orchestrator_script, orchestrator_kwargs,
    bind, logger_info, call; cbn.
  destruct (call_outcome w _ (Sessionmaker _ _ _)); cbn;
    [ | exists 2%nat; cbn; now rewrite <- app_assoc
      | exists 2%nat; cbn; now rewrite <- app_assoc ].
  destruct (call_outcome w _ (NewOrchestrator _)); cbn;
    [ | exists 3%nat; cbn; now rewrite <- !app_assoc
      | exists 3%nat; cbn; now rewrite <- !app_assoc ].
  exists 4%nat.
  destruct (call_outcome w _ (RunLoop _)); cbn; now rewrite <- !app_assoc.
Qed.

Lemma run_orchestrator_constructs db sp data logs sleep s :
  call_outcome w (trace s ++ [Log INFO "Starting the orchestrator"])
    (Sessionmaker false false db) = Returns ->
  call_outcome w
    (trace s ++ [Log INFO "Starting the orchestrator";
                 Sessionmaker false false db])
    (NewOrchestrator (orchestrator_kwargs db sp data logs sleep)) = Returns ->
  run_orchestrator w g db sp data logs sleep s
  = call w (RunLoop (VOrchestrator (orchestrator_kwargs db sp data logs sleep)))
      (State (trace s ++ [Log INFO "Starting the orchestrator";
                          Sessionmaker false false db;
                          NewOrchestrator
                            (orchestrator_kwargs db sp data logs sleep)])
         (routes s) (threads s) (st_port s)).
Proof.
  intros Hs Hc.
  unfold run_orchestrator, bind, logger_info, call at 1 2; cbn.
  rewrite Hs; cbn. rewrite <- app_assoc; cbn.
  fold (orchestrator_kwargs db sp data logs sleep).
  rewrite Hc; cbn. unfold record; cbn [trace routes threads st_port].
  now rewrite <- !app_assoc.
Qed.

End OrchestratorFacts.

(** In Google Cloud Shell the lifespan starts the thread and logs the proxy
    address with the port. *)
Example lifespan_in_cloud_shell :
  lifespan_startup Worlds.two_builds (initial_state Cfg.configured)
  = (Ok tt,
     State
       [ ThreadStart run_configured_orchestrator_fn true;
         Log INFO
           "View app at: https://shell.cloud.google.com/devshell/proxy?port=8000" ]
       [] [Thread run_configured_orchestrator_fn true Alive] 8000).
Proof. reflexivity. Qed.

(** When the API server does not answer the probe, the module stops there. *)
Example module_body_unreachable_cluster :
  module_body Worlds.unreachable_cluster Cfg.configured true
    (initial_state Cfg.configured)
  = (Raise Worlds.max_retry_error,
     State
       [ DictConfig; NewStorageProvider; LoadInclusterConfig; NewApiClient;
         VersionGetCode VApiClient 5 ]
       [] [] 8000).
Proof. reflexivity. Qed.

(** When every call returns, the module body binds [booted_globals]. *)
Example module_body_calm :
  fst (module_body Worlds.calm Cfg.configured false (initial_state Cfg.configured))
  = Ok (booted_globals Cfg.configured).
Proof. reflexivity. Qed.

(** C2.  Whatever its arguments, [run_orchestrator] does nothing but, in
    this order, log its start, build a session factory bound to the given
    engine, construct the orchestrator with the six keyword arguments
    session factory, launcher, storage provider, data root URI, logs root
    URI and sweep interval, and call [run_loop] on it; once the session
    factory and the orchestrator are built, [run_loop] is called on that
    orchestrator and its outcome is the outcome of [run_orchestrator]. *)
Theorem run_orchestrator_contract (w : world) (g : globals)
    (db_engine storage_provider : value) (data_root_uri logs_root_uri : string)
    (sleep_seconds_between_queue_sweeps : Q) (s : state) :
  let kw :=
    [ ("session_factory", VSessionFactory false false db_engine);
      ("launcher", launcher g);
      ("storage_provider", storage_provider);
      ("data_root_uri", VStr data_root_uri);
      ("logs_root_uri", VStr logs_root_uri);
      ("sleep_seconds_between_queue_sweeps",
       VFloat sleep_seconds_between_queue_sweeps) ] in
  let script :=
    [ Log INFO "Starting the orchestrator";
      Sessionmaker false false db_engine;
      NewOrchestrator kw;
      RunLoop (VOrchestrator kw) ] in
  let run :=
    run_orchestrator w g db_engine storage_provider data_root_uri
      logs_root_uri sleep_seconds_between_queue_sweeps s in
  (exists n, trace (snd run) = trace s ++ firstn n script)
  /\ (call_outcome w (trace s ++ firstn 1 script)
        (Sessionmaker false false db_engine) = Returns ->
      call_outcome w (trace s ++ firstn 2 script) (NewOrchestrator kw) = Returns ->
      trace (snd run) = trace s ++ script
      /\ fst run
         = match call_outcome w (trace s ++ firstn 3 script)
                   (RunLoop (VOrchestrator kw)) with
           | Returns => Ok tt
           | Raises e => Raise e
           | Hangs => Forever
           end).
Proof.
  intros kw script run. split.
  - apply run_orchestrator_prefix.
  - intros Hs Hc. subst run.
    rewrite (run_orchestrator_constructs w g _ _ _ _ _ s Hs Hc).
    rewrite call_state, call_result. cbn. split; [ | reflexivity ].
    now rewrite <- app_assoc.
Qed.

Lemma run_orchestrator_contract_witness :
  trace (snd (run_orchestrator Worlds.calm (booted_globals Cfg.configured)
                (VEngine "sqlite:///db.sqlite") VStorageProvider
                "gs://a" "gs://l" (1 # 2) (initial_state Cfg.configured)))
  = [ Log INFO "Starting the orchestrator";
      Sessionmaker false false (VEngine "sqlite:///db.sqlite");
      NewOrchestrator
        [ ("session_factory",
           VSessionFactory false false (VEngine "sqlite:///db.sqlite"));
          ("launcher", VLauncher VApiClient (VStr "default") VNone);
          ("storage_provider", VStorageProvider);
          ("data_root_uri", VStr "gs://a");
          ("logs_root_uri", VStr "gs://l");
          ("sleep_seconds_between_queue_sweeps", VFloat (1 # 2)) ];
      RunLoop
        (VOrchestrator
           [ ("session_factory",
              VSessionFactory false false (VEngine "sqlite:///db.sqlite"));
             ("launcher", VLauncher VApiClient (VStr "default") VNone);
             ("storage_provider", VStorageProvider);
             ("data_root_uri", VStr "gs://a");
             ("logs_root_uri", VStr "gs://l");
             ("sleep_seconds_between_queue_sweeps", VFloat (1 # 2)) ]) ].
Proof.
  exact (proj1 (proj2 (run_orchestrator_contract Worlds.calm
                         (booted_globals Cfg.configured)
                         (VEngine "sqlite:///db.sqlite") VStorageProvider
                         "gs://a" "gs://l" (1 # 2)
                         (initial_state Cfg.configured))
                  eq_refl eq_refl)).
Defined.

Lemma In_firstn {A} (x : A) n l : In x (firstn n l) -> In x l.
Proof.
  intros H. rewrite <- (firstn_skipn n l). apply in_or_app. now left.
Qed.

(** The keyword arguments of every orchestrator construction in a trace. *)
Lemma constructed_in_script g db sp data logs sleep n kw :
  In (NewOrchestrator kw) (firstn n (orchestrator_script g db sp data logs sleep)) ->
  kw = orchestrator_kwargs g db sp data logs sleep.
Proof.
  intros H. apply In_firstn in H. cbn in H.
  destruct H as [H | [H | [H | [H | []]]]]; try discriminate.
  now inversion H.
Qed.

(** C3 as stated fails: the orchestrator the bootstrap constructs receives
    no integer (retry limit) and no boolean (skip policy) argument. *)
Lemma retry_limit_and_skip_policy_not_passed :
  ~ (forall kw,
        In (NewOrchestrator kw)
          (trace (snd (run_configured_orchestrator Worlds.calm Cfg.configured
                         (booted_globals Cfg.configured)
                         (initial_state Cfg.configured)))) ->
        existsb is_float (map snd kw) = true
        /\ existsb is_int (map snd kw) = true
        /\ existsb is_bool (map snd kw) = true).
Proof.
  intros H.
  specialize (H (orchestrator_kwargs (booted_globals Cfg.configured)
                   (VEngine "sqlite:///db.sqlite") VStorageProvider
                   "gs://<bucket-artifacts>/artifacts" "gs://<bucket-logs>/logs"
                   (1 # 1))).
  cbn in H. destruct H as (_ & H & _); [ tauto | discriminate H ].
Qed.

(** C3, amended.  Of the configuration, the orchestrator the bootstrap
    constructs receives the sweep interval only, as the float keyword
    argument [sleep_seconds_between_queue_sweeps]: its keyword arguments are
    exactly the session factory, the launcher, the storage provider, the two
    root URIs and that interval, and none of them is an integer or a
    boolean. *)
Theorem only_sweep_interval_passed (w : world) (cfg : Cfg.config) (kw : kwargs) :
  In (NewOrchestrator kw)
    (trace (snd (run_configured_orchestrator w cfg (booted_globals cfg)
                   (initial_state cfg)))) ->
  Py.keys kw
  = [ "session_factory"; "launcher"; "storage_provider"; "data_root_uri";
      "logs_root_uri"; "sleep_seconds_between_queue_sweeps" ]
  /\ Py.get "sleep_seconds_between_queue_sweeps" kw
     = Some (VFloat (Cfg.sleep_seconds_between_queue_sweeps cfg))
  /\ filter is_float (map snd kw)
     = [VFloat (Cfg.sleep_seconds_between_queue_sweeps cfg)]
  /\ existsb is_int (map snd kw) = false
  /\ existsb is_bool (map snd kw) = false.
Proof.
  unfold run_configured_orchestrator.
  destruct (run_orchestrator_prefix w (booted_globals cfg)
              (db_engine (booted_globals cfg))
              (storage_provider (booted_globals cfg))
              (Cfg.artifacts_root_uri cfg) (Cfg.logs_root_uri cfg)
              (Cfg.sleep_seconds_between_queue_sweeps cfg)
              (initial_state cfg)) as [n Hn].
  rewrite Hn. cbn [initial_state trace app].
  intros H. apply constructed_in_script in H. subst kw.
  cbn. destruct (Cfg.kubernetes_service_account_name cfg); cbn; repeat split.
Qed.

Lemma only_sweep_interval_passed_witness :
  filter is_float
    (map snd
       (orchestrator_kwargs (booted_globals Cfg.configured)
          (VEngine "sqlite:///db.sqlite") VStorageProvider
          "gs://<bucket-artifacts>/artifacts" "gs://<bucket-logs>/logs" (1 # 1)))
  = [VFloat (1 # 1)].
Proof.
  refine (proj1 (proj2 (proj2
            (only_sweep_interval_passed Worlds.calm Cfg.configured _ _)))).
  cbn. tauto.
Defined.

(** ** Authentication *)

(** C8.  With the authentication type [dummy_admin] the authentication
    region succeeds and binds a [get_user_details] that maps every request
    to the user named admin with read, write and admin permissions: the
    request has no influence on the result. *)
Theorem get_user_details_constant (cfg : Cfg.config) (s : state) :
  Cfg.authentication_type cfg = "dummy_admin" ->
  exists auth,
    authentication_configuration cfg s = (Ok auth, s)
    /\ (forall request,
          user_details_getter auth request
          = {| name := "admin";
               permissions := {| read := true; write := true; admin := true |} |})
    /\ (forall request1 request2,
          user_details_getter auth request1 = user_details_getter auth request2).
Proof.
  intros H. unfold authentication_configuration. rewrite H. cbn.
  eexists. split; [ reflexivity | ]. cbn. split; reflexivity.
Qed.

Lemma get_user_details_constant_witness :
  exists auth,
    authentication_configuration Cfg.configured (initial_state Cfg.configured)
    = (Ok auth, initial_state Cfg.configured)
    /\ (forall request,
          user_details_getter auth request
          = {| name := "admin";
               permissions := {| read := true; write := true; admin := true |} |})
    /\ (forall request1 request2,
          user_details_getter auth request1 = user_details_getter auth request2).
Proof.
  exact (get_user_details_constant Cfg.configured (initial_state Cfg.configured)
           eq_refl).
Defined.

(** ** The exception handler *)






(** ** Mounting the Web app *)

Section Mounting.

Variable w : world.

Hypothesis mounts_return : forall t m, call_outcome w t (AppMount m) = Returns.



End Mounting.


Lemma no_candidate_filter (w : world) (dirs : list path) :
  (forall d, In d dirs -> path_exists w d = false) ->
  filter (path_exists w) dirs = [] /\ existsb (path_exists w) dirs = false.
Proof.
  induction dirs as [| d rest IH]; intros H; [ now split | ].
  cbn. rewrite (H d (or_introl eq_refl)).
  apply IH. intros d' Hd'. apply H. now right.
Qed.




(** ** Properties kept by the main thread *)

Section Preservation.

Context {P : state -> Prop}.

Lemma preserves_ret {A} (a : A) : preserves P (ret a).
Proof. intros s H. exact H. Qed.

Lemma preserves_raise {A} (e : exn) : preserves P (@raise A e).
Proof. intros s H. exact H. Qed.

Lemma preserves_bind {A B} (m : M A) (k : A -> M B) :
  preserves P m -> (forall a, preserves P (k a)) -> preserves P (bind m k).
Proof.
  intros Hm Hk s Hs. unfold bind.
  specialize (Hm s Hs). destruct (m s) as [[a | e |] s']; cbn in *; auto.
  now apply Hk.
Qed.

Lemma preserves_try_except {A} (body handler : M A) :
  preserves P body -> preserves P handler ->
  preserves P (try_except body handler).
Proof.
  intros Hb Hh s Hs. unfold try_except.
  specialize (Hb s Hs). destruct (body s) as [[a | e |] s']; cbn in *; auto.
Qed.

Lemma preserves_if {A} (b : bool) (m1 m2 : M A) :
  preserves P m1 -> preserves P m2 -> preserves P (if b then m1 else m2).
Proof. now destruct b. Qed.

End Preservation.

(** Properties of the state that survive everything the main thread does:
    the module body, the lifespan and the handling of requests.  Such a
    property must survive the recording of every event that is not one of
    the orchestrator's calls, a change of [port], a new mount, the start of
    a daemon thread on [run_configured_orchestrator], and the progress of
    the threads. *)
Section MainThread.

Variable w : world.
Variable cfg : Cfg.config.
Variable g : globals.
Variable P : state -> Prop.

Hypothesis P_record :
  forall e s, is_loop_event e = false -> P s -> P (record e s).
Hypothesis P_port :
  forall p s, P s -> P (State (trace s) (routes s) (threads s) p).
Hypothesis P_mount :
  forall m s, P s -> P (State (trace s) (routes s ++ [m]) (threads s) (st_port s)).
Hypothesis P_thread :
  forall s, P s ->
    P (State (trace s) (routes s)
         (threads s ++ [Thread run_configured_orchestrator_fn true Alive])
         (st_port s)).
Hypothesis P_progress :
  forall i s, P s ->
    P (State (trace s) (routes s)
         (update_nth i (run_thread w cfg g) (threads s)) (st_port s)).

Lemma call_keeps e : is_loop_event e = false -> preserves P (call w e).
Proof. intros He s Hs. rewrite call_state. now apply P_record. Qed.

Lemma logger_info_keeps msg : preserves P (logger_info msg).
Proof. intros s Hs. now apply P_record. Qed.

Lemma logger_warning_keeps msg : preserves P (logger_warning msg).
Proof. intros s Hs. now apply P_record. Qed.

Lemma get_port_keeps : preserves P get_port.
Proof. intros s Hs. exact Hs. Qed.

Lemma set_port_keeps p : preserves P (set_port p).
Proof. intros s Hs. now apply P_port. Qed.

Lemma orchestrator_thread_start_keeps :
  preserves P (thread_start w run_configured_orchestrator_fn true).
Proof.
  apply preserves_bind; [ now apply call_keeps | ].
  intros _ s Hs. now apply P_thread.
Qed.

Lemma app_mount_keeps m : preserves P (app_mount w m).
Proof.
  apply preserves_bind; [ now apply call_keeps | ].
  intros _ s Hs. now apply P_mount.
Qed.

Create HintDb mainthread.
Hint Resolve call_keeps logger_info_keeps logger_warning_keeps
  get_port_keeps set_port_keeps orchestrator_thread_start_keeps
  app_mount_keeps : mainthread.
Hint Resolve preserves_ret preserves_raise : mainthread.

Ltac step_preserves :=
  repeat first
    [ solve [ auto with mainthread ]
    | apply preserves_bind; [ | intros ? ]
    | apply preserves_try_except
    | apply preserves_if ].

Lemma lifespan_startup_keeps : preserves P (lifespan_startup w).
Proof. unfold lifespan_startup. step_preserves. Qed.

Lemma mount_loop_keeps dirs :
  forall found, preserves P (mount_loop w dirs found).
Proof.
  induction dirs as [| d rest IH]; intros found; cbn [mount_loop];
    step_preserves.
Qed.

Lemma module_body_keeps is_main : preserves P (module_body w cfg is_main).
Proof.
  unfold module_body, logging_configuration, storage_configuration,
    launcher_configuration, load_incluster_config, load_kube_config,
    authentication_configuration, database_engine_initialization,
    api_server_initialization, mount_web_app, main.
  pose proof mount_loop_keeps.
  step_preserves.
Qed.

Lemma serve_keeps ev s : P s -> P (serve w cfg g ev s).
Proof.
  destruct ev; cbn [serve]; auto.
  apply lifespan_startup_keeps.
Qed.

Lemma serve_all_keeps evs : forall s, P s -> P (serve_all w cfg g evs s).
Proof.
  induction evs as [| ev evs IH]; intros s Hs; [ exact Hs | ].
  cbn. apply IH. now apply serve_keeps.
Qed.

(** The property holds in every state the process can reach. *)
Lemma reachable_keeps is_main evs :
  P (initial_state cfg) ->
  P (serve_all w cfg g evs (snd (module_body w cfg is_main (initial_state cfg)))).
Proof.
  intros H0. apply serve_all_keeps. now apply module_body_keeps.
Qed.

End MainThread.



(** ** The lifespan and the threads *)

Lemma update_nth_eq {A} (f : A -> A) (l : list A) : forall i t,
  nth_error l i = Some t -> nth_error (update_nth i f l) i = Some (f t).
Proof.
  induction l as [| x l IH]; intros [| i] t H; try discriminate; cbn in *.
  - now inversion H.
  - now apply IH.
Qed.

Lemma update_nth_neq {A} (f : A -> A) (l : list A) : forall i j,
  i <> j -> nth_error (update_nth i f l) j = nth_error l j.
Proof.
  induction l as [| x l IH]; intros [| i] [| j] H; cbn; try reflexivity.
  - contradiction.
  - apply IH. congruence.
Qed.

Lemma update_nth_length {A} (f : A -> A) (l : list A) : forall i,
  length (update_nth i f l) = length l.
Proof.
  induction l as [| x l IH]; intros [| i]; cbn; try reflexivity.
  now rewrite IH.
Qed.

Lemma update_nth_Forall {A} (Q : A -> Prop) (f : A -> A) (l : list A) :
  (forall x, Q x -> Q (f x)) -> forall i, Forall Q l -> Forall Q (update_nth i f l).
Proof.
  intros Hf. induction l as [| x l IH]; intros [| i] H; cbn; auto;
    inversion H; subst; constructor; auto.
Qed.

Section Lifespan.

Variable w : world.
Variable cfg : Cfg.config.
Variable g : globals.

Lemma lifespan_startup_threads s :
  threads (snd (lifespan_startup w s))
  = threads s
      ++ match call_outcome w (trace s)
                 (ThreadStart run_configured_orchestrator_fn true) with
         | Returns => [Thread run_configured_orchestrator_fn true Alive]
         | _ => []
         end.
Proof.
  unfold lifespan_startup, thread_start, bind, call.
  destruct (call_outcome w (trace s) _); cbn; try now rewrite app_nil_r.
  now destruct (in_google_cloud_shell w).
Qed.


Lemma run_thread_orchestrator_daemon t :
  orchestrator_daemon t -> orchestrator_daemon (run_thread w cfg g t).
Proof. unfold run_thread. now destruct (thread_status_of t). Qed.

Lemma run_thread_over t :
  thread_status_of t <> Alive -> run_thread w cfg g t = t.
Proof. unfold run_thread. destruct (thread_status_of t); congruence. Qed.

(** Every thread the process ever has is a daemon thread on
    [run_configured_orchestrator]. *)
Lemma reachable_threads_daemon is_main evs :
  Forall orchestrator_daemon
    (threads (serve_all w cfg g evs
                (snd (module_body w cfg is_main (initial_state cfg))))).
Proof.
  apply (reachable_keeps w cfg g
           (fun s => Forall orchestrator_daemon (threads s)));
    cbn; try (intros; assumption).
  - intros s H. apply Forall_app. split; [ exact H | ].
    constructor; [ now split | constructor ].
  - intros i s H. apply update_nth_Forall; [ | exact H ].
    apply run_thread_orchestrator_daemon.
  - constructor.
Qed.

(** Only the progress of a thread itself changes it. *)
Lemma serve_other s ev i t :
  ev <> ThreadRuns i ->
  nth_error (threads s) i = Some t ->
  nth_error (threads (serve w cfg g ev s)) i = Some t.
Proof.
  intros Hev Ht. destruct ev as [ | | r | r | r e | j]; cbn [serve snd lifespan_shutdown ret];
    try exact Ht.
  - rewrite lifespan_startup_threads, nth_error_app1; [ exact Ht | ].
    apply nth_error_Some. congruence.
  - cbn. rewrite update_nth_neq; [ exact Ht | congruence ].
Qed.

(** A thread that is over is never touched again. *)
Lemma serve_over s ev i t :
  thread_status_of t <> Alive ->
  nth_error (threads s) i = Some t ->
  nth_error (threads (serve w cfg g ev s)) i = Some t.
Proof.
  intros Hover Ht.
  destruct (match ev with ThreadRuns j => Nat.eqb j i | _ => false end) eqn:E.
  - destruct ev; try discriminate. apply Nat.eqb_eq in E. subst i0.
    cbn. rewrite (update_nth_eq _ _ _ _ Ht). now rewrite run_thread_over.
  - apply serve_other; [ | exact Ht ].
    intros ->. now rewrite Nat.eqb_refl in E.
Qed.

Lemma serve_all_over evs : forall s i t,
  thread_status_of t <> Alive ->
  nth_error (threads s) i = Some t ->
  nth_error (threads (serve_all w cfg g evs s)) i = Some t.
Proof.
  induction evs as [| ev evs IH]; intros s i t Hover Ht; [ exact Ht | ].
  cbn. apply IH; [ exact Hover | ]. now apply serve_over.
Qed.

(** Threads are started by the lifespan only. *)
Lemma serve_all_thread_count evs : forall s,
  existsb is_startup evs = false ->
  length (threads (serve_all w cfg g evs s)) = length (threads s).
Proof.
  induction evs as [| ev evs IH]; intros s H; [ reflexivity | ].
  cbn in H. apply orb_false_iff in H. destruct H as [Hev Hevs].
  change (serve_all w cfg g (ev :: evs) s)
    with (serve_all w cfg g evs (serve w cfg g ev s)).
  rewrite (IH _ Hevs).
  destruct ev; try discriminate; cbn; try reflexivity.
  apply update_nth_length.
Qed.

Lemma thread_dies s i e :
  nth_error (threads s) i = Some (Thread run_configured_orchestrator_fn true Alive) ->
  fst (run_configured_orchestrator w cfg g (initial_state cfg)) = Raise e ->
  nth_error (threads (serve w cfg g (ThreadRuns i) s)) i
  = Some (Thread run_configured_orchestrator_fn true (Died e)).
Proof.
  intros Ht He. cbn [serve threads]. rewrite (update_nth_eq _ _ _ _ Ht).
  unfold run_thread.
  cbn [thread_status_of thread_target thread_daemon thread_body].
  now rewrite He.
Qed.

End Lifespan.

(** An exception of [run_loop] is the exception of the thread's target. *)
Lemma run_loop_exception_escapes w cfg g s e :
  call_outcome w (trace s ++ [Log INFO "Starting the orchestrator"])
    (Sessionmaker false false (db_engine g)) = Returns ->
  call_outcome w
    (trace s ++ [Log INFO "Starting the orchestrator";
                 Sessionmaker false false (db_engine g)])
    (NewOrchestrator
       (orchestrator_kwargs g (db_engine g) (storage_provider g)
          (Cfg.artifacts_root_uri cfg) (Cfg.logs_root_uri cfg)
          (Cfg.sleep_seconds_between_queue_sweeps cfg))) = Returns ->
  call_outcome w
    (trace s ++ [Log INFO "Starting the orchestrator";
                 Sessionmaker false false (db_engine g);
                 NewOrchestrator
                   (orchestrator_kwargs g (db_engine g) (storage_provider g)
                      (Cfg.artifacts_root_uri cfg) (Cfg.logs_root_uri cfg)
                      (Cfg.sleep_seconds_between_queue_sweeps cfg))])
    (RunLoop
       (VOrchestrator
          (orchestrator_kwargs g (db_engine g) (storage_provider g)
             (Cfg.artifacts_root_uri cfg) (Cfg.logs_root_uri cfg)
             (Cfg.sleep_seconds_between_queue_sweeps cfg)))) = Raises e ->
  fst (run_configured_orchestrator w cfg g s) = Raise e.
Proof.
  intros Hs Hc Hr. unfold run_configured_orchestrator.
  rewrite (run_orchestrator_constructs w g _ _ _ _ _ s Hs Hc).
  rewrite call_result. cbn [trace]. now rewrite Hr.
Qed.


(** C5.  The orchestrator runs on a daemon thread: every thread of the
    process is a daemon thread on [run_configured_orchestrator].  Nothing
    stops it: the lifespan does nothing on exit, and only the progress of a
    thread itself changes it.  When its target raises, which it does when
    [run_loop] raises, the thread is dead; a thread that is over stays as it
    is, and no thread is started unless the lifespan is entered again. *)
Theorem orchestrator_thread_detached (w : world) (cfg : Cfg.config)
    (g : globals) (s : state) :
  (forall is_main evs,
      Forall orchestrator_daemon
        (threads (serve_all w cfg g evs
                    (snd (module_body w cfg is_main (initial_state cfg))))))
  /\ lifespan_shutdown s = (Ok tt, s)
  /\ (forall ev i t,
        ev <> ThreadRuns i ->
        nth_error (threads s) i = Some t ->
        nth_error (threads (serve w cfg g ev s)) i = Some t)
  /\ (forall i e,
        nth_error (threads s) i
        = Some (Thread run_configured_orchestrator_fn true Alive) ->
        fst (run_configured_orchestrator w cfg g (initial_state cfg)) = Raise e ->
        nth_error (threads (serve w cfg g (ThreadRuns i) s)) i
        = Some (Thread run_configured_orchestrator_fn true (Died e)))
  /\ (forall e,
        call_outcome w [Log INFO "Starting the orchestrator"]
          (Sessionmaker false false (db_engine g)) = Returns ->
        call_outcome w
          [Log INFO "Starting the orchestrator";
           Sessionmaker false false (db_engine g)]
          (NewOrchestrator
             (orchestrator_kwargs g (db_engine g) (storage_provider g)
                (Cfg.artifacts_root_uri cfg) (Cfg.logs_root_uri cfg)
                (Cfg.sleep_seconds_between_queue_sweeps cfg))) = Returns ->
        call_outcome w
          [Log INFO "Starting the orchestrator";
           Sessionmaker false false (db_engine g);
           NewOrchestrator
             (orchestrator_kwargs g (db_engine g) (storage_provider g)
                (Cfg.artifacts_root_uri cfg) (Cfg.logs_root_uri cfg)
                (Cfg.sleep_seconds_between_queue_sweeps cfg))]
          (RunLoop
             (VOrchestrator
                (orchestrator_kwargs g (db_engine g) (storage_provider g)
                   (Cfg.artifacts_root_uri cfg) (Cfg.logs_root_uri cfg)
                   (Cfg.sleep_seconds_between_queue_sweeps cfg)))) = Raises e ->
        fst (run_configured_orchestrator w cfg g (initial_state cfg)) = Raise e)
  /\ (forall evs i t,
        thread_status_of t <> Alive ->
        nth_error (threads s) i = Some t ->
        nth_error (threads (serve_all w cfg g evs s)) i = Some t)
  /\ (forall evs,
        existsb is_startup evs = false ->
        length (threads (serve_all w cfg g evs s)) = length (threads s)).
Proof.
  split; [ intros is_main evs; apply reachable_threads_daemon | ].
  split; [ reflexivity | ].
  split; [ intros ev i t; apply serve_other | ].
  split; [ intros i e; apply thread_dies | ].
  split.
  { intros e Hs Hc Hr.
    now apply (run_loop_exception_escapes w cfg g (initial_state cfg) e). }
  split; [ intros evs i t; apply serve_all_over | ].
  intros evs. apply serve_all_thread_count.
Qed.

Lemma orchestrator_thread_detached_witness :
  nth_error (threads Worlds.started) 0
  = Some (Thread run_configured_orchestrator_fn true Alive)
  /\ nth_error
       (threads (serve Worlds.database_down Cfg.configured
                   (booted_globals Cfg.configured) (HttpPing Worlds.ping)
                   Worlds.started)) 0
     = Some (Thread run_configured_orchestrator_fn true Alive)
  /\ nth_error (threads Worlds.dead) 0
     = Some (Thread run_configured_orchestrator_fn true
               (Died Worlds.connection_lost))
  /\ nth_error (threads Worlds.later) 0
     = Some (Thread run_configured_orchestrator_fn true
               (Died Worlds.connection_lost))
  /\ length (threads Worlds.later) = 1%nat.
Proof.
  pose proof (orchestrator_thread_detached Worlds.database_down Cfg.configured
                (booted_globals Cfg.configured) Worlds.started)
    as (_ & _ & Hother & Hdies & Hescapes & _ & _).
  pose proof (orchestrator_thread_detached Worlds.database_down Cfg.configured
                (booted_globals Cfg.configured) Worlds.dead)
    as (_ & _ & _ & _ & _ & Hover & Hcount).
  assert (Hraise : fst (run_configured_orchestrator Worlds.database_down
                          Cfg.configured (booted_globals Cfg.configured)
                          (initial_state Cfg.configured))
                   = Raise Worlds.connection_lost)
    by (apply Hescapes; reflexivity).
  assert (Hdead : nth_error (threads Worlds.dead) 0
                  = Some (Thread run_configured_orchestrator_fn true
                            (Died Worlds.connection_lost)))
    by (apply Hdies; [ reflexivity | exact Hraise ]).
  split; [ reflexivity | ].
  split; [ apply Hother; [ discriminate | reflexivity ] | ].
  split; [ exact Hdead | ].
  split.
  - apply Hover; [ discriminate | exact Hdead ].
  - unfold Worlds.later. rewrite Hcount; reflexivity.
Defined.

(** * Further properties of the module *)

(** ** Authentication: the other types *)

(** The authentication region never touches the state.  It succeeds exactly
    for the type [dummy_admin]; the type [google_cloud_iap] raises
    [NotImplementedError], and every other type raises [ValueError] with a
    message that names the type. *)
Theorem authentication_supported_iff (cfg : Cfg.config) (s : state) :
  snd (authentication_configuration cfg s) = s
  /\ ((exists auth, fst (authentication_configuration cfg s) = Ok auth)
      <-> Cfg.authentication_type cfg = "dummy_admin")
  /\ (Cfg.authentication_type cfg = "google_cloud_iap" ->
      fst (authentication_configuration cfg s)
      = Raise (Exn "NotImplementedError"
                 "Google Cloud IAP authentication is not implemented yet." []))
  /\ (Cfg.authentication_type cfg <> "dummy_admin" ->
      Cfg.authentication_type cfg <> "google_cloud_iap" ->
      fst (authentication_configuration cfg s)
      = Raise (Exn "ValueError"
                 ("Unknown authentication type: " ++ Cfg.authentication_type cfg)
                 [])).
Proof.
  unfold authentication_configuration.
  destruct (String.eqb_spec (Cfg.authentication_type cfg) "dummy_admin") as [E | E].
  - split; [ reflexivity | ].
    split; [ split; [ intros _; exact E | intros _; eexists; reflexivity ] | ].
    split; [ intros H; rewrite E in H; discriminate H | intros H; contradiction ].
  - destruct (String.eqb_spec (Cfg.authentication_type cfg) "google_cloud_iap")
      as [E' | E'].
    + split; [ reflexivity | ].
      split; [ split; [ intros [auth H]; discriminate H | intros H; contradiction ] | ].
      split; [ intros _; reflexivity | intros _ H; contradiction ].
    + split; [ reflexivity | ].
      split; [ split; [ intros [auth H]; discriminate H | intros H; contradiction ] | ].
      split; [ intros H; contradiction | intros _ _; reflexivity ].
Qed.

Lemma authentication_supported_iff_witness :
  fst (authentication_configuration
         (Worlds.with_authentication_type "google_cloud_iap")
         (initial_state Cfg.configured))
  = Raise (Exn "NotImplementedError"
             "Google Cloud IAP authentication is not implemented yet." [])
  /\ fst (authentication_configuration
            (Worlds.with_authentication_type "oauth")
            (initial_state Cfg.configured))
     = Raise (Exn "ValueError" "Unknown authentication type: oauth" [])
  /\ (exists auth,
        fst (authentication_configuration Cfg.configured
               (initial_state Cfg.configured)) = Ok auth).
Proof.
  split; [ | split ].
  - exact (proj1 (proj2 (proj2 (authentication_supported_iff
             (Worlds.with_authentication_type "google_cloud_iap")
             (initial_state Cfg.configured)))) eq_refl).
  - refine (proj2 (proj2 (proj2 (authentication_supported_iff
              (Worlds.with_authentication_type "oauth")
              (initial_state Cfg.configured)))) _ _); discriminate.
  - exact (proj2 (proj1 (proj2 (authentication_supported_iff Cfg.configured
                                  (initial_state Cfg.configured)))) eq_refl).
Defined.

(** ** The launcher region, call by call *)

Lemma skipn_length_app {A} (l r : list A) : skipn (length l) (l ++ r) = r.
Proof. now rewrite skipn_app, skipn_all, Nat.sub_diag. Qed.

Lemma new_events_eq {A} (m : M A) s evs :
  trace (snd (m s)) = trace s ++ evs -> new_events m s = evs.
Proof. intros H. unfold new_events. rewrite H. apply skipn_length_app. Qed.

Ltac split_calls w :=
  repeat match goal with
         | |- context [match call_outcome w ?t ?e with _ => _ end] =>
             destruct (call_outcome w t e) eqn:?; cbn
         end.

(** The kubeconfig is read exactly when the in-cluster load raises: inside
    a cluster the settings [kubeconfig_path] and [kubeconfig_context] are
    not used, and when the in-cluster load does not come back nothing else
    is tried. *)
Theorem kubeconfig_read_iff_incluster_raises (w : world) (cfg : Cfg.config)
    (s : state) :
  (exists config_file context,
      In (LoadKubeConfig config_file context)
        (new_events (launcher_configuration w cfg) s))
  <-> (exists e, call_outcome w (trace s) LoadInclusterConfig = Raises e).
Proof.
  destruct (call_outcome w (trace s) LoadInclusterConfig) eqn:E.
  - split; [ | intros [e H]; discriminate H ].
    intros (a & b & H). exfalso. revert H.
    unfold new_events, launcher_configuration, bind, try_except,
      load_incluster_config, load_kube_config, call, ret, record; cbn.
    rewrite E; cbn. split_calls w;
      rewrite <- ?app_assoc; cbn [app]; rewrite skipn_length_app; cbn;
      intuition discriminate.
  - split; [ intros _; now exists e | ].
    intros _.
    destruct (fallback_on_any_exception w cfg s e E) as [rest Hrest].
    rewrite (new_events_eq _ _ _ Hrest).
    do 2 eexists. right. left. reflexivity.
  - split; [ | intros [e H]; discriminate H ].
    intros (a & b & H). exfalso. revert H.
    unfold new_events, launcher_configuration, bind, try_except,
      load_incluster_config, load_kube_config, call, ret, record; cbn.
    rewrite E; cbn. rewrite skipn_length_app; cbn. intuition discriminate.
Qed.

Lemma kubeconfig_read_iff_incluster_raises_witness :
  exists config_file context,
    In (LoadKubeConfig config_file context)
      (new_events (launcher_configuration Worlds.outside_cluster Cfg.configured)
         (initial_state Cfg.configured)).
Proof.
  refine (proj2 (kubeconfig_read_iff_incluster_raises Worlds.outside_cluster
                   Cfg.configured (initial_state Cfg.configured)) _).
  exists Worlds.config_exception. reflexivity.
Defined.

(** When the launcher region succeeds it has made exactly these calls, in
    this order: the in-cluster load, the kubeconfig load if the former
    raised, the construction of the client, the version probe with that
    client, and the construction of the launcher with that same client, the
    configured namespace and the configured service account.  Routes,
    threads and [port] are as before. *)
Theorem launcher_configuration_success (w : world) (cfg : Cfg.config)
    (s s' : state) (v : value) :
  launcher_configuration w cfg s = (Ok v, s') ->
  v = VLauncher VApiClient (VStr (Cfg.kubernetes_namespace cfg))
        (of_optional_str (Cfg.kubernetes_service_account_name cfg))
  /\ (trace s'
      = trace s
          ++ [ LoadInclusterConfig; NewApiClient; VersionGetCode VApiClient 5;
               NewLauncher VApiClient (VStr (Cfg.kubernetes_namespace cfg))
                 (of_optional_str (Cfg.kubernetes_service_account_name cfg)) ]
      \/ trace s'
         = trace s
             ++ [ LoadInclusterConfig;
                  LoadKubeConfig (of_optional_str (Cfg.kubeconfig_path cfg))
                    (of_optional_str (Cfg.kubeconfig_context cfg));
                  NewApiClient; VersionGetCode VApiClient 5;
                  NewLauncher VApiClient (VStr (Cfg.kubernetes_namespace cfg))
                    (of_optional_str (Cfg.kubernetes_service_account_name cfg)) ])
  /\ routes s' = routes s
  /\ threads s' = threads s
  /\ st_port s' = st_port s.
Proof.
  unfold launcher_configuration, bind, try_except, load_incluster_config,
    load_kube_config, call, ret, record; cbn.
  split_calls w; intros H; inversion H; subst; clear H; cbn;
    rewrite <- ?app_assoc; cbn [app]; auto 6.
Qed.

Lemma launcher_configuration_success_witness :
  trace (snd (launcher_configuration Worlds.outside_cluster Cfg.configured
                (initial_state Cfg.configured)))
  = [ LoadInclusterConfig; NewApiClient; VersionGetCode VApiClient 5;
      NewLauncher VApiClient (VStr "default") VNone ]
  \/ trace (snd (launcher_configuration Worlds.outside_cluster Cfg.configured
                   (initial_state Cfg.configured)))
     = [ LoadInclusterConfig; LoadKubeConfig VNone VNone; NewApiClient;
         VersionGetCode VApiClient 5;
         NewLauncher VApiClient (VStr "default") VNone ].
Proof.
  exact (proj1 (proj2 (launcher_configuration_success Worlds.outside_cluster
                         Cfg.configured (initial_state Cfg.configured) _ _
                         eq_refl))).
Defined.

(** ** Module-level code *)

Lemma bind_ok_inv {A B} (m : M A) (k : A -> M B) s b s' :
  bind m k s = (Ok b, s') ->
  exists a s1, m s = (Ok a, s1) /\ k a s1 = (Ok b, s').
Proof.
  unfold bind. destruct (m s) as [[a | e |] s1]; intros H;
    try discriminate H.
  now exists a, s1.
Qed.

Section ModuleLevel.

Variable w : world.
Variable ok : event -> bool.

Lemma module_level_ret {A} (a : A) : module_level ok (ret a).
Proof. intros s. exists []. cbn. now rewrite app_nil_r. Qed.

Lemma module_level_raise {A} (e : exn) : module_level ok (@raise A e).
Proof. intros s. exists []. cbn. now rewrite app_nil_r. Qed.

Lemma module_level_get_port : module_level ok get_port.
Proof. intros s. exists []. cbn. now rewrite app_nil_r. Qed.

Lemma module_level_call e : ok e = true -> module_level ok (call w e).
Proof.
  intros He s. exists [e]. rewrite call_state. cbn. now rewrite He.
Qed.

Lemma module_level_logger_info msg :
  ok (Log INFO msg) = true -> module_level ok (logger_info msg).
Proof. intros He s. exists [Log INFO msg]. cbn. now rewrite He. Qed.

Lemma module_level_logger_warning msg :
  ok (Log WARNING msg) = true -> module_level ok (logger_warning msg).
Proof. intros He s. exists [Log WARNING msg]. cbn. now rewrite He. Qed.

Lemma module_level_app_mount m :
  ok (AppMount m) = true -> module_level ok (app_mount w m).
Proof.
  intros He s. exists [AppMount m]. unfold app_mount, bind, call.
  destruct (call_outcome w (trace s) (AppMount m)); cbn; now rewrite He.
Qed.

Lemma module_level_bind {A B} (m : M A) (k : A -> M B) :
  module_level ok m -> (forall a, module_level ok (k a)) ->
  module_level ok (bind m k).
Proof.
  intros Hm Hk s. unfold bind.
  destruct (Hm s) as (evs1 & Ht & Ho & Hth & Hp).
  destruct (m s) as [[a | e |] s1]; cbn in *;
    try (exists evs1; now repeat split).
  destruct (Hk a s1) as (evs2 & Ht2 & Ho2 & Hth2 & Hp2).
  exists (evs1 ++ evs2).
  rewrite Ht2, Ht, app_assoc, forallb_app, Ho, Ho2, Hth2, Hth, Hp2, Hp.
  now repeat split.
Qed.

Lemma module_level_try_except {A} (body handler : M A) :
  module_level ok body -> module_level ok handler ->
  module_level ok (try_except body handler).
Proof.
  intros Hb Hh s. unfold try_except.
  destruct (Hb s) as (evs1 & Ht & Ho & Hth & Hp).
  destruct (body s) as [[a | e |] s1]; cbn in *;
    try (exists evs1; now repeat split).
  destruct (Hh s1) as (evs2 & Ht2 & Ho2 & Hth2 & Hp2).
  exists (evs1 ++ evs2).
  rewrite Ht2, Ht, app_assoc, forallb_app, Ho, Ho2, Hth2, Hth, Hp2, Hp.
  now repeat split.
Qed.

Lemma module_level_if {A} (b : bool) (m1 m2 : M A) :
  module_level ok m1 -> module_level ok m2 ->
  module_level ok (if b then m1 else m2).
Proof. now destruct b. Qed.

End ModuleLevel.

Lemma module_level_weaken {A} (ok ok' : event -> bool) (m : M A) :
  (forall e, ok e = true -> ok' e = true) ->
  module_level ok m -> module_level ok' m.
Proof.
  intros Hw Hm s. destruct (Hm s) as (evs & Ht & Ho & Hth & Hp).
  exists evs. repeat split; auto.
  rewrite forallb_forall in *. auto.
Qed.

Ltac module_level_step w :=
  first
    [ apply module_level_ret
    | apply module_level_raise
    | apply module_level_get_port
    | apply (module_level_call w); reflexivity
    | apply module_level_logger_info; reflexivity
    | apply module_level_logger_warning; reflexivity
    | apply (module_level_app_mount w); reflexivity
    | assumption
    | apply module_level_try_except
    | apply module_level_if
    | apply module_level_bind; [ | intros ? ] ].

Lemma launcher_configuration_module_level w cfg :
  module_level is_kubernetes_event (launcher_configuration w cfg).
Proof.
  unfold launcher_configuration, load_incluster_config, load_kube_config.
  repeat module_level_step w.
Qed.






(** ** Why startup fails *)

Section FailureCause.

Variable w : world.
Variable Q : exn -> state -> Prop.
Variable blamed : event -> Prop.

Hypothesis Q_call :
  forall s ev e,
    blamed ev -> call_outcome w (trace s) ev = Raises e -> Q e (record ev s).












End FailureCause.





(** ** The orchestrator entry point, call by call *)

(** [run_orchestrator] catches nothing and returns only when [run_loop]
    itself returns: if it ends with an exception, the last thing it did
    was a call (the session factory, the constructor or [run_loop]) that
    raised this very exception; if it returns, its last call was a
    [run_loop] that returned; and [run_loop] is only ever called right
    after the construction of its orchestrator, from a session factory
    bound to the given engine, has returned. *)
Theorem run_orchestrator_outcome :
  forall (w : world) (g : globals)
    (db_engine storage_provider : value) (data_root_uri logs_root_uri : string)
    (sleep : Q) (s s' : state) (r : result unit),
  run_orchestrator w g db_engine storage_provider data_root_uri logs_root_uri
    sleep s = (r, s') ->
  (forall e, r = Raise e ->
     exists pre ev,
       trace s' = pre ++ [ev]
       /\ call_outcome w pre ev = Raises e
       /\ is_loop_event ev = true)
  /\ (r = Ok tt ->
      exists pre orchestrator,
        trace s' = pre ++ [RunLoop orchestrator]
        /\ call_outcome w pre (RunLoop orchestrator) = Returns)
  /\ (forall orchestrator,
        In (RunLoop orchestrator) (skipn (length (trace s)) (trace s')) ->
        exists kw pre,
          orchestrator = VOrchestrator kw
          /\ trace s' = pre ++ [NewOrchestrator kw; RunLoop orchestrator]
          /\ call_outcome w pre (NewOrchestrator kw) = Returns
          /\ Py.get "session_factory" kw
             = Some (VSessionFactory false false db_engine)).
Proof.
  intros w g db sp data logs sleep s s' r.
  unfold run_orchestrator, bind, logger_info. cbn [fst snd].
  set (s0 := record (Log INFO "Starting the orchestrator") s).
  set (kw := [("session_factory", VSessionFactory false false db); _; _; _; _; _]).
  unfold call at 1.
  destruct (call_outcome w (trace s0) (Sessionmaker false false db)) eqn:Es.
  - set (s1 := record (Sessionmaker false false db) s0).
    unfold call at 1.
    destruct (call_outcome w (trace s1) (NewOrchestrator kw)) eqn:Ec.
    + set (s2 := record (NewOrchestrator kw) s1).
      assert (Hin : forall o s3, trace s3 = trace s2 ++ [RunLoop (VOrchestrator kw)] ->
                In (RunLoop o) (skipn (length (trace s)) (trace s3)) ->
        exists kw0 pre,
          o = VOrchestrator kw0
          /\ trace s3 = pre ++ [NewOrchestrator kw0; RunLoop o]
          /\ call_outcome w pre (NewOrchestrator kw0) = Returns
          /\ Py.get "session_factory" kw0
             = Some (VSessionFactory false false db)).
      { intros o s3 Ht. rewrite Ht. subst s2 s1 s0. cbn [trace record].
        rewrite <- !app_assoc. cbn [app]. rewrite skipn_length_app.
        intros [H | [H | [H | [H | []]]]]; try discriminate H.
        inversion H; subst o. exists kw, (trace s ++ [Log INFO "Starting the orchestrator"; Sessionmaker false false db]).
        split; [ reflexivity | ]. split; [ now rewrite <- app_assoc | ].
        split; [ | reflexivity ].
        subst kw. cbn [trace record] in Ec. rewrite <- app_assoc in Ec. exact Ec. }
      unfold call.
      destruct (call_outcome w (trace s2) (RunLoop (VOrchestrator kw))) eqn:Er;
        intros H; inversion H; subst r s'; clear H.
      * split; [ discriminate | ]. split; [ | intros o; now apply Hin ].
        intros _. now exists (trace s2), (VOrchestrator kw).
      * split; [ | split; [ discriminate | intros o; now apply Hin ] ].
        intros e0 He0. inversion He0; subst e0.
        now exists (trace s2), (RunLoop (VOrchestrator kw)).
      * split; [ discriminate | ]. split; [ discriminate | intros o; now apply Hin ].
    + intros H; inversion H; subst r s'; clear H.
      split; [ | split; [ discriminate | ] ].
      * intros e0 He0. inversion He0; subst e0.
        now exists (trace s1), (NewOrchestrator kw).
      * intros o. subst s1 s0. cbn [trace record].
        rewrite <- !app_assoc. cbn [app]. rewrite skipn_length_app.
        intros [H | [H | [H | []]]]; discriminate H.
    + intros H; inversion H; subst r s'; clear H.
      split; [ discriminate | split; [ discriminate | ] ].
      intros o. subst s1 s0. cbn [trace record].
      rewrite <- !app_assoc. cbn [app]. rewrite skipn_length_app.
      intros [H | [H | [H | []]]]; discriminate H.
  - intros H; inversion H; subst r s'; clear H.
    split; [ | split; [ discriminate | ] ].
    + intros e0 He0. inversion He0; subst e0.
      now exists (trace s0), (Sessionmaker false false db).
    + intros o. subst s0. cbn [trace record].
      rewrite <- !app_assoc. cbn [app]. rewrite skipn_length_app.
      intros [H | [H | []]]; discriminate H.
  - intros H; inversion H; subst r s'; clear H.
    split; [ discriminate | split; [ discriminate | ] ].
    intros o. subst s0. cbn [trace record].
    rewrite <- !app_assoc. cbn [app]. rewrite skipn_length_app.
    intros [H | [H | []]]; discriminate H.
Qed.

Lemma run_orchestrator_outcome_witness :
  exists pre ev,
    trace (snd (run_configured_orchestrator Worlds.database_down Cfg.configured
                  (booted_globals Cfg.configured)
                  (initial_state Cfg.configured)))
    = pre ++ [ev]
    /\ call_outcome Worlds.database_down pre ev = Raises Worlds.connection_lost
    /\ is_loop_event ev = true.
Proof.
  exact (proj1 (run_orchestrator_outcome Worlds.database_down
                  (booted_globals Cfg.configured)
                  (VEngine "sqlite:///db.sqlite") VStorageProvider
                  "gs://<bucket-artifacts>/artifacts" "gs://<bucket-logs>/logs"
                  (1 # 1) (initial_state Cfg.configured) _ _ eq_refl)
           Worlds.connection_lost eq_refl).
Defined.

(** ** The lifespan: the port and repeated entries *)

Lemma in_google_cloud_shell_iff w :
  in_google_cloud_shell w = true
  <-> environ_get w "GOOGLE_CLOUD_SHELL" = Some "true".
Proof.
  unfold in_google_cloud_shell.
  destruct (environ_get w "GOOGLE_CLOUD_SHELL") as [v |]; [ | split; discriminate ].
  destruct (String.eqb_spec v "true") as [-> | Hne]; split; auto; try discriminate.
  intros H. inversion H. contradiction.
Qed.

(** The lifespan changes [port] only in Google Cloud Shell, that is when the
    variable [GOOGLE_CLOUD_SHELL] is exactly the string true, and only from 0
    to 8000: a nonzero port is never changed.  Unless that variable is set
    so, nothing is logged and the only effect is the start of the thread.
    In Cloud Shell, once the thread is started, the port is nonzero and the
    address logged names the port as it is left. *)
Theorem lifespan_port (w : world) (s : state) :
  (st_port s <> 0 -> st_port (snd (lifespan_startup w s)) = st_port s)
  /\ (environ_get w "GOOGLE_CLOUD_SHELL" <> Some "true" ->
      st_port (snd (lifespan_startup w s)) = st_port s
      /\ trace (snd (lifespan_startup w s))
         = trace s ++ [ThreadStart run_configured_orchestrator_fn true])
  /\ (environ_get w "GOOGLE_CLOUD_SHELL" = Some "true" ->
      call_outcome w (trace s) (ThreadStart run_configured_orchestrator_fn true)
      = Returns ->
      st_port (snd (lifespan_startup w s))
      = (if st_port s =? 0 then 8000 else st_port s)
      /\ st_port (snd (lifespan_startup w s)) <> 0
      /\ trace (snd (lifespan_startup w s))
         = trace s
             ++ [ ThreadStart run_configured_orchestrator_fn true;
                  Log INFO
                    ("View app at: https://shell.cloud.google.com/devshell/proxy?port="
                       ++ str_int (st_port (snd (lifespan_startup w s)))) ]).
Proof.
  unfold lifespan_startup, thread_start, bind, call, get_port, set_port,
    logger_info, ret, record.
  split; [ | split ].
  - intros Hp.
    destruct (call_outcome w (trace s) _); cbn; try reflexivity.
    destruct (in_google_cloud_shell w); cbn; [ | reflexivity ].
    destruct (Z.eqb_spec (st_port s) 0); [ contradiction | reflexivity ].
  - intros Henv.
    assert (E : in_google_cloud_shell w = false).
    { destruct (in_google_cloud_shell w) eqn:E; [ | reflexivity ].
      apply in_google_cloud_shell_iff in E. contradiction. }
    rewrite E.
    destruct (call_outcome w (trace s) _); cbn; now split.
  - intros Henv Hret. apply in_google_cloud_shell_iff in Henv.
    rewrite Hret, Henv. cbn.
    split; [ reflexivity | split ].
    + destruct (Z.eqb_spec (st_port s) 0); [ discriminate | assumption ].
    + now rewrite <- app_assoc.
Qed.

Lemma lifespan_port_witness :
  st_port (snd (lifespan_startup Worlds.two_builds
                  (State [] [] [] 0))) = 8000
  /\ st_port (snd (lifespan_startup Worlds.two_builds
                     (State [] [] [] 9000))) = 9000
  /\ trace (snd (lifespan_startup Worlds.calm (State [] [] [] 0)))
     = [ThreadStart run_configured_orchestrator_fn true].
Proof.
  split; [ | split ].
  - exact (proj1 (proj2 (proj2 (lifespan_port Worlds.two_builds
                                  (State [] [] [] 0))) eq_refl eq_refl)).
  - refine (proj1 (lifespan_port Worlds.two_builds (State [] [] [] 9000)) _).
    discriminate.
  - refine (proj2 (proj1 (proj2 (lifespan_port Worlds.calm (State [] [] [] 0))) _)).
    discriminate.
Defined.

(** Nothing guards against a second entry: every time the lifespan is
    entered another daemon thread on [run_configured_orchestrator] is
    started, so that after [n] entries there are [n] more threads, each
    running its own orchestrator loop. *)
Theorem lifespan_reentry_starts_again (w : world) (cfg : Cfg.config)
    (g : globals) (n : nat) :
  (forall t, call_outcome w t (ThreadStart run_configured_orchestrator_fn true)
             = Returns) ->
  forall s,
    threads (serve_all w cfg g (repeat LifespanStartup n) s)
    = threads s ++ repeat (Thread run_configured_orchestrator_fn true Alive) n.
Proof.
  intros Hret. induction n as [| n IH]; intros s.
  - cbn. now rewrite app_nil_r.
  - change (serve_all w cfg g (repeat LifespanStartup (S n)) s)
      with (serve_all w cfg g (repeat LifespanStartup n)
              (serve w cfg g LifespanStartup s)).
    rewrite IH. cbn [serve]. rewrite lifespan_startup_threads, Hret.
    rewrite <- app_assoc. reflexivity.
Qed.

Lemma lifespan_reentry_starts_again_witness :
  threads (serve_all Worlds.calm Cfg.configured (booted_globals Cfg.configured)
             (repeat LifespanStartup 2) (initial_state Cfg.configured))
  = [ Thread run_configured_orchestrator_fn true Alive;
      Thread run_configured_orchestrator_fn true Alive ].
Proof.
  exact (lifespan_reentry_starts_again Worlds.calm Cfg.configured
           (booted_globals Cfg.configured) 2 (fun _ => eq_refl)
           (initial_state Cfg.configured)).
Defined.

(** ** Mounting, without assumptions on [app.mount] *)

Lemma app_mount_ok_inv w m s a s' :
  app_mount w m s = (Ok a, s') ->
  call_outcome w (trace s) (AppMount m) = Returns
  /\ s' = State (trace s ++ [AppMount m]) (routes s ++ [m]) (threads s) (st_port s).
Proof.
  unfold app_mount, bind, call.
  destruct (call_outcome w (trace s) (AppMount m)); intros H; inversion H.
  now split.
Qed.

Lemma mount_loop_ok_inv w dirs : forall found s b s',
  mount_loop w dirs found s = (Ok b, s') ->
  b = found || existsb (path_exists w) dirs
  /\ s' = State
            (trace s
               ++ flat_map (fun d => Log INFO (found_message w d)
                                       :: map AppMount (mounts_of_dir d))
                    (filter (path_exists w) dirs))
            (routes s ++ flat_map mounts_of_dir (filter (path_exists w) dirs))
            (threads s) (st_port s).
Proof.
  induction dirs as [| d rest IH]; intros found s b s'; cbn [mount_loop].
  - intros H. inversion H; subst. cbn.
    rewrite orb_false_r, !app_nil_r. split; [ reflexivity | now destruct s' ].
  - cbn [existsb filter]. destruct (path_exists w d) eqn:Hd.
    + intros H.
      apply bind_ok_inv in H. destruct H as (a0 & s0 & H0 & H).
      apply bind_ok_inv in H. destruct H as (a1 & s1 & H1 & H).
      apply bind_ok_inv in H. destruct H as (a2 & s2 & H2 & H).
      apply bind_ok_inv in H. destruct H as (a3 & s3 & H3 & H).
      inversion H0; subst s0. clear H0.
      apply app_mount_ok_inv in H1. destruct H1 as [_ ->].
      apply app_mount_ok_inv in H2. destruct H2 as [_ ->].
      apply app_mount_ok_inv in H3. destruct H3 as [_ ->].
      apply IH in H. destruct H as [-> ->].
      cbn. rewrite orb_true_r. split; [ reflexivity | ].
      f_equal; now rewrite <- !app_assoc.
    + intros H. apply IH in H. exact H.
Qed.

(** Whenever the mounting region comes to its end, the routes have gained,
    for every existing candidate in the order of the list, its three
    mounts; each candidate was announced by one info record right before
    its mounts; and the warning was logged exactly when no candidate
    exists.  Threads and [port] are as before. *)
Theorem mounting_success (w : world) (s s' : state) :
  mount_web_app w s = (Ok tt, s') ->
  routes s'
  = routes s
      ++ flat_map mounts_of_dir (filter (path_exists w) web_app_search_dirs)
  /\ trace s'
     = trace s
         ++ flat_map (fun d => Log INFO (found_message w d)
                                 :: map AppMount (mounts_of_dir d))
              (filter (path_exists w) web_app_search_dirs)
         ++ (if existsb (path_exists w) web_app_search_dirs then []
             else [Log WARNING "The Web app files were not found. Skipping."])
  /\ threads s' = threads s
  /\ st_port s' = st_port s.
Proof.
  unfold mount_web_app. intros H.
  apply bind_ok_inv in H. destruct H as (found & s1 & Hloop & H).
  apply mount_loop_ok_inv in Hloop. destruct Hloop as [-> ->].
  cbn [orb] in H.
  destruct (existsb (path_exists w) web_app_search_dirs); cbn in H;
    inversion H; subst; cbn; rewrite ?app_nil_r, <- ?app_assoc; auto.
Qed.

Lemma mounting_success_witness :
  trace (snd (mount_web_app Worlds.two_builds (initial_state Cfg.configured)))
  = [ Log INFO
        "Found the Web app static files at /app/../frontend_build. Mounting them.";
      AppMount (Mount "/tangle-ui/" (join (join this_dir "..") "frontend_build")
                  true "static");
      AppMount (Mount "/pipeline-studio-app/"
                  (join (join this_dir "..") "frontend_build") true "static");
      AppMount (Mount "/" (join (join this_dir "..") "frontend_build")
                  true "static");
      Log INFO "Found the Web app static files at /app/ui_build. Mounting them.";
      AppMount (Mount "/tangle-ui/" (join this_dir "ui_build") true "static");
      AppMount (Mount "/pipeline-studio-app/" (join this_dir "ui_build")
                  true "static");
      AppMount (Mount "/" (join this_dir "ui_build") true "static") ].
Proof.
  exact (proj1 (proj2 (mounting_success Worlds.two_builds
                         (initial_state Cfg.configured) _ eq_refl))).
Defined.

(** ** The order of the regions *)

Lemma call_ok_inv w e s a s' :
  call w e s = (Ok a, s') ->
  call_outcome w (trace s) e = Returns /\ s' = record e s.
Proof.
  unfold call. destruct (call_outcome w (trace s) e); intros H; inversion H.
  now split.
Qed.

Lemma not_in_new (ok : event -> bool) s s' evs x :
  trace s' = trace s ++ evs -> forallb ok evs = true -> ok x = false ->
  ~ In x (skipn (length (trace s)) (trace s')).
Proof.
  intros Ht Ho Hx. rewrite Ht, skipn_length_app. intros H.
  rewrite forallb_forall in Ho. apply Ho in H. congruence.
Qed.

Lemma mount_loop_module_level_gen w ok dirs :
  (forall msg, ok (Log INFO msg) = true) ->
  (forall m, ok (AppMount m) = true) ->
  forall found, module_level ok (mount_loop w dirs found).
Proof.
  intros Hl Hm. induction dirs as [| d rest IH]; intros found; cbn [mount_loop].
  - apply module_level_ret.
  - apply module_level_if; [ | apply IH ].
    apply module_level_bind; [ apply module_level_logger_info, Hl | intros _ ].
    repeat (apply module_level_bind; [ apply module_level_app_mount, Hm | intros _ ]).
    apply IH.
Qed.

(** What runs after the database call adds no database call. *)
Lemma after_database_module_level w cfg (is_main : bool) g auth :
  module_level (fun e => negb (is_database_event e))
    (api_server_initialization w g auth ;;
     mount_web_app w ;;
     (if is_main then main w cfg else ret tt) ;;
     ret g).
Proof.
  unfold api_server_initialization, mount_web_app, main.
  pose proof (mount_loop_module_level_gen w (fun e => negb (is_database_event e))
                web_app_search_dirs (fun _ => eq_refl) (fun _ => eq_refl) false).
  repeat module_level_step w.
Qed.

Ltac in_cases H :=
  rewrite ?in_app_iff in H; cbn [In] in H;
  repeat match type of H with
         | _ \/ _ => destruct H as [H | H]
         end;
  try discriminate H; try contradiction.

(** The database is created and migrated only with the configured URI, only
    when the authentication type is supported, and only after the version
    probe of the Kubernetes API has returned: a cluster that cannot be
    reached or an unknown authentication type stops the module before the
    database is touched. *)
Theorem database_created_after_checks (w : world) (cfg : Cfg.config)
    (is_main : bool) (s : state) (uri : string) :
  In (CreateDbEngineAndMigrateDb uri) (new_events (module_body w cfg is_main) s) ->
  uri = Cfg.database_uri cfg
  /\ Cfg.authentication_type cfg = "dummy_admin"
  /\ exists pre post,
       trace (snd (module_body w cfg is_main s))
       = pre ++ VersionGetCode VApiClient 5 :: post
       /\ call_outcome w pre (VersionGetCode VApiClient 5) = Returns
       /\ In (CreateDbEngineAndMigrateDb uri) post.
Proof.
  unfold new_events.
  remember (module_body w cfg is_main s) as r eqn:Hr.
  unfold module_body in Hr.
  unfold bind at 1 in Hr. unfold logging_configuration in Hr.
  pose proof (call_state w DictConfig s) as T1.
  destruct (call w DictConfig s) as [[[] | e |] s1]; cbn [snd] in T1; subst s1.
  2,3: subst r; cbn [snd record trace]; rewrite skipn_length_app;
       intros H; in_cases H.
  unfold bind at 1 in Hr. unfold storage_configuration in Hr.
  unfold bind at 1 in Hr.
  pose proof (call_state w NewStorageProvider (record DictConfig s)) as T2.
  destruct (call w NewStorageProvider (record DictConfig s)) as [[[] | e |] s2];
    cbn [snd] in T2; subst s2.
  2,3: subst r; cbn [snd record trace]; rewrite <- app_assoc, skipn_length_app;
       intros H; in_cases H.
  unfold ret at 1 in Hr. unfold bind at 1 in Hr.
  set (s2 := record NewStorageProvider (record DictConfig s)) in *.
  destruct (launcher_configuration_module_level w cfg s2) as (evs & Ht & Ho & _ & _).
  rewrite forallb_forall in Ho.
  assert (Hbefore : forall s3, trace s3 = trace s2 ++ evs ->
            ~ In (CreateDbEngineAndMigrateDb uri)
                (skipn (length (trace s)) (trace s3))).
  { intros s3 H3. rewrite H3. subst s2. cbn [record trace].
    rewrite <- !app_assoc, skipn_length_app.
    intros H; in_cases H. apply Ho in H. discriminate H. }
  destruct (launcher_configuration w cfg s2) as [[l | e |] s3] eqn:E3; cbn [snd] in Ht.
  2,3: subst r; cbn [snd]; intros H; exfalso; exact (Hbefore _ Ht H).
  unfold bind at 1 in Hr.
  destruct (authentication_supported_iff cfg s3) as (Hs & Hiff & _).
  destruct (authentication_configuration cfg s3) as [[auth | e |] s4] eqn:E4;
    cbn [snd fst] in Hs, Hiff; subst s4.
  2,3: subst r; cbn [snd]; intros H; exfalso; exact (Hbefore _ Ht H).
  assert (Hauth : Cfg.authentication_type cfg = "dummy_admin")
    by (apply Hiff; now exists auth).
  destruct (success_needs_probe w cfg s2 l s3 E3) as (pre & post & Hpre & Hprobe).
  unfold bind at 1 in Hr. unfold database_engine_initialization in Hr.
  unfold bind at 1 in Hr.
  pose proof (call_state w (CreateDbEngineAndMigrateDb (Cfg.database_uri cfg)) s3)
    as T5.
  destruct (call w (CreateDbEngineAndMigrateDb (Cfg.database_uri cfg)) s3)
    as [[[] | e |] s5]; cbn [snd] in T5; subst s5.
  2,3: subst r; cbn [snd record trace]; intros H;
       rewrite Ht in H; subst s2; cbn [record trace] in H;
       rewrite <- !app_assoc, skipn_length_app in H; in_cases H;
       [ apply Ho in H; discriminate H | ];
       inversion H; subst uri;
       (split; [ reflexivity | split; [ exact Hauth | ] ]);
       exists pre, (post ++ [CreateDbEngineAndMigrateDb (Cfg.database_uri cfg)]);
       (split; [ rewrite Hpre, <- app_assoc; reflexivity
               | split; [ exact Hprobe | ] ]);
       apply in_or_app; right; now left.
  unfold ret at 1 in Hr.
  set (s5 := record (CreateDbEngineAndMigrateDb (Cfg.database_uri cfg)) s3) in *.
  destruct (after_database_module_level w cfg is_main
              {| storage_provider := VStorageProvider; launcher := l;
                 db_engine := VEngine (Cfg.database_uri cfg) |} auth s5)
    as (evs' & Ht' & Ho' & _ & _).
  rewrite forallb_forall in Ho'.
  rewrite <- Hr in Ht'.
  intros H. rewrite Ht' in H. subst s5. cbn [record trace] in H.
  rewrite Ht in H. subst s2. cbn [record trace] in H.
  rewrite <- !app_assoc, skipn_length_app in H. in_cases H.
  - apply Ho in H. discriminate H.
  - inversion H; subst uri.
    split; [ reflexivity | split; [ exact Hauth | ] ].
    exists pre, (post ++ CreateDbEngineAndMigrateDb (Cfg.database_uri cfg) :: evs').
    split; [ | split; [ exact Hprobe | ] ].
    + rewrite Ht'. cbn [record trace]. rewrite Hpre, <- !app_assoc. reflexivity.
    + apply in_or_app. right. now left.
  - apply Ho' in H. discriminate H.
Qed.

Lemma database_created_after_checks_witness :
  exists pre post,
    trace (snd (module_body Worlds.outside_cluster Cfg.configured false
                  (initial_state Cfg.configured)))
    = pre ++ VersionGetCode VApiClient 5 :: post
    /\ call_outcome Worlds.outside_cluster pre (VersionGetCode VApiClient 5)
       = Returns
    /\ In (CreateDbEngineAndMigrateDb "sqlite:///db.sqlite") post.
Proof.
  refine (proj2 (proj2 (database_created_after_checks Worlds.outside_cluster
                          Cfg.configured false (initial_state Cfg.configured)
                          "sqlite:///db.sqlite" _))).
  cbn. tauto.
Defined.

(** ** Running the module as a script *)





(** ** A successful load *)

(** Whenever the module body comes to its end, the authentication type is
    [dummy_admin]; the globals are the storage provider, the launcher built
    from the probed client with the configured namespace and service
    account, and the engine of the configured database; the routes were set
    up, after the database was created, on that very engine and that very
    launcher, with [get_user_details] as the user getter and the admin user
    as the owner of the default component library; and the routes of the
    application are the mounts of the existing candidates. *)
Theorem module_body_success :
  forall (w : world) (cfg : Cfg.config) (is_main : bool)
    (s s' : state) (g : globals),
  module_body w cfg is_main s = (Ok g, s') ->
  g = booted_globals cfg
  /\ Cfg.authentication_type cfg = "dummy_admin"
  /\ routes s'
     = routes s
         ++ flat_map mounts_of_dir (filter (path_exists w) web_app_search_dirs)
  /\ exists before after,
       trace s'
       = before
           ++ [ CreateDbEngineAndMigrateDb (Cfg.database_uri cfg);
                NewFastAPI "Tangle API" "0.0.1" false lifespan_fn;
                AddExceptionHandler handle_error_fn;
                SetupRoutes
                  [ ("app", VApp "Tangle API" "0.0.1" false lifespan_fn);
                    ("db_engine", VEngine (Cfg.database_uri cfg));
                    ("user_details_getter", VFunction get_user_details_fn);
                    ("container_launcher_for_log_streaming",
                     VLauncher VApiClient (VStr (Cfg.kubernetes_namespace cfg))
                       (of_optional_str (Cfg.kubernetes_service_account_name cfg)));
                    ("default_component_library_owner_username", VStr "admin") ];
                AddGetRoute "/services/ping" health_check_fn ]
           ++ after.
Proof.
  intros w cfg is_main s s' g H. unfold module_body in H.
  apply bind_ok_inv in H. destruct H as (a1 & s1 & H1 & H).
  apply call_ok_inv in H1. destruct H1 as [_ ->].
  apply bind_ok_inv in H. destruct H as (sp & s2 & H2 & H).
  unfold storage_configuration in H2.
  apply bind_ok_inv in H2. destruct H2 as (a2 & s2' & H2 & H2').
  apply call_ok_inv in H2. destruct H2 as [_ ->].
  inversion H2'; subst sp s2; clear H2'.
  apply bind_ok_inv in H. destruct H as (l & s3 & H3 & H).
  apply launcher_configuration_success in H3.
  destruct H3 as (-> & _ & Hr3 & _ & _).
  apply bind_ok_inv in H. destruct H as (auth & s4 & H4 & H).
  destruct (authentication_supported_iff cfg s3) as (Hs4 & Hiff & _).
  rewrite H4 in Hs4, Hiff. cbn [fst snd] in Hs4, Hiff. subst s4.
  assert (Hauth : Cfg.authentication_type cfg = "dummy_admin")
    by (apply Hiff; now exists auth).
  unfold authentication_configuration in H4. rewrite Hauth in H4. cbn in H4.
  inversion H4; subst auth; clear H4.
  apply bind_ok_inv in H. destruct H as (db & s5 & H5 & H).
  unfold database_engine_initialization in H5.
  apply bind_ok_inv in H5. destruct H5 as (a5 & s5' & H5 & H5').
  apply call_ok_inv in H5. destruct H5 as [_ ->].
  inversion H5'; subst db s5; clear H5'.
  apply bind_ok_inv in H. destruct H as (a6 & s6 & H6 & H).
  unfold api_server_initialization in H6.
  apply bind_ok_inv in H6. destruct H6 as (b1 & t1 & K1 & H6).
  apply call_ok_inv in K1. destruct K1 as [_ ->].
  apply bind_ok_inv in H6. destruct H6 as (b2 & t2 & K2 & H6).
  apply call_ok_inv in K2. destruct K2 as [_ ->].
  apply bind_ok_inv in H6. destruct H6 as (b3 & t3 & K3 & H6).
  apply call_ok_inv in K3. destruct K3 as [_ ->].
  apply call_ok_inv in H6. destruct H6 as [_ ->].
  apply bind_ok_inv in H. destruct H as ([] & s7 & H7 & H).
  apply mounting_success in H7. destruct H7 as (Hr7 & Ht7 & _ & _).
  apply bind_ok_inv in H. destruct H as (a8 & s8 & H8 & H).
  inversion H; subst g s'; clear H.
  assert (H9 : routes s8 = routes s7 /\ exists evs, trace s8 = trace s7 ++ evs).
  { destruct is_main.
    - unfold main in H8.
      apply bind_ok_inv in H8. destruct H8 as (p & u1 & L1 & H8).
      inversion L1; subst p u1; clear L1.
      apply bind_ok_inv in H8. destruct H8 as (c1 & u2 & L2 & H8).
      inversion L2; subst u2; clear L2.
      apply call_ok_inv in H8. destruct H8 as [_ ->].
      split; [ reflexivity | ]. rewrite !trace_record, <- app_assoc.
      eexists. reflexivity.
    - inversion H8; subst. split; [ reflexivity | ]. exists []. now rewrite app_nil_r. }
  destruct H9 as (Hr8 & evs8 & Ht8).
  split; [ reflexivity | split; [ exact Hauth | split ] ].
  - rewrite Hr8, Hr7. cbn [record routes]. now rewrite Hr3.
  - rewrite Ht8, Ht7, !trace_record.
    unfold setup_routes_kwargs, app.
    cbn [db_engine launcher default_component_library_owner_username].
    eexists (trace s3), _.
    rewrite <- !app_assoc. reflexivity.
Qed.

Lemma module_body_success_witness :
  routes (snd (module_body Worlds.two_builds Cfg.configured true
                 (initial_state Cfg.configured)))
  = flat_map mounts_of_dir
      (filter (path_exists Worlds.two_builds) web_app_search_dirs).
Proof.
  exact (proj1 (proj2 (proj2 (module_body_success Worlds.two_builds
                                Cfg.configured true
                                (initial_state Cfg.configured) _ _ eq_refl)))).
Defined.
